(** * beartype: DOOR middle-men wrappers and PEP 484/585 generic utilities

    Shallow embedding of
    - [beartype/door/_cls/doorsub.py] (module [Door]), and
    - [beartype/_util/hint/pep/proposal/pep484585/utilpepgeneric.py]
      (module [Generic]).

    Python builtins and collaborators that live outside these two files are
    fields of the classes [Door.PyRuntime] and [Generic.HintRuntime]; every
    definition is executable once they are instantiated, which module [Demo]
    does. *)

From Stdlib Require Import List Bool String Ascii Arith Lia DecimalString.
From Stdlib Require Import NArith.
Import ListNotations.
Open Scope string_scope.
Set Warnings "-register-all".

(** ** Exceptions *)

(** The exception classes named in the two files, plus any other class a
    caller may pass as [exception_cls]. *)
Inductive ExceptionCls : Type :=
  | BeartypeDoorException
  | BeartypeDecorHintPep484585Exception
  | BeartypeDecorHintPepException
  | OtherException (name : string).

(** A raised exception: its class and its message. *)
Record PyException : Type := mkException {
  exc_cls : ExceptionCls;
  exc_msg : string
}.

(** Outcome of a call that either returns or raises. *)
Inductive result (A : Type) : Type :=
  | Return (value : A)
  | Raise (e : PyException).
Arguments Return {A} value.
Arguments Raise {A} e.

(** [sub] occurs inside [s]. *)
Definition contains (s sub : string) : Prop :=
  exists pre post, s = pre ++ sub ++ post.

(** [str(n)] for a non-negative integer. *)
Definition str_of_nat (n : nat) : string :=
  NilEmpty.string_of_uint (Nat.to_uint n).

(** ** doorsub.py *)
Module Door.

(** The classes of doorsub.py. [_TypeHintOriginIsinstanceable] is abstract
    (its [_args_len_expected] is an abstract property). *)
Inductive WrapperCls : Type :=
  | TypeHintSubscripted
  | TypeHintOriginIsinstanceable
  | TypeHintOriginIsinstanceableArgs1
  | TypeHintOriginIsinstanceableArgs2
  | TypeHintOriginIsinstanceableArgs3.

Definition WrapperCls_eqb (a b : WrapperCls) : bool :=
  match a, b with
  | TypeHintSubscripted, TypeHintSubscripted
  | TypeHintOriginIsinstanceable, TypeHintOriginIsinstanceable
  | TypeHintOriginIsinstanceableArgs1, TypeHintOriginIsinstanceableArgs1
  | TypeHintOriginIsinstanceableArgs2, TypeHintOriginIsinstanceableArgs2
  | TypeHintOriginIsinstanceableArgs3, TypeHintOriginIsinstanceableArgs3 => true
  | _, _ => false
  end.

(** The direct superclass inside doorsub.py ([None] for the class deriving
    from [TypeHint] directly). *)
Definition base_of (c : WrapperCls) : option WrapperCls :=
  match c with
  | TypeHintSubscripted => None
  | TypeHintOriginIsinstanceable => Some TypeHintSubscripted
  | TypeHintOriginIsinstanceableArgs1
  | TypeHintOriginIsinstanceableArgs2
  | TypeHintOriginIsinstanceableArgs3 => Some TypeHintOriginIsinstanceable
  end.

(** [issubclass(c, d)] between wrapper classes: [d] is [c] or one of its
    ancestors (the hierarchy has depth three). *)
Definition wrapper_issubclass (c d : WrapperCls) : bool :=
  WrapperCls_eqb c d ||
  match base_of c with
  | None => false
  | Some c1 =>
      WrapperCls_eqb c1 d ||
      match base_of c1 with
      | None => false
      | Some c2 => WrapperCls_eqb c2 d
      end
  end.

(** Whether the class inherits [_TypeHintOriginIsinstanceable._is_equal] and
    [_TypeHintOriginIsinstanceable._make_args]. *)
Definition is_isinstanceable (c : WrapperCls) : bool :=
  wrapper_issubclass c TypeHintOriginIsinstanceable.

(** [_args_len_expected]: 1, 2, 3 on the leaves; the abstract property body
    is [pass], and the base class does not declare it. *)
Definition _args_len_expected (c : WrapperCls) : option nat :=
  match c with
  | TypeHintOriginIsinstanceableArgs1 => Some 1
  | TypeHintOriginIsinstanceableArgs2 => Some 2
  | TypeHintOriginIsinstanceableArgs3 => Some 3
  | _ => None
  end.

(** The concrete leaves of the hierarchy. *)
Definition is_leaf (c : WrapperCls) : bool :=
  match _args_len_expected c with Some _ => true | None => false end.

(** [str(type(self))]. *)
Definition str_of_cls (c : WrapperCls) : string :=
  "<class 'beartype.door._cls.doorsub." ++
  match c with
  | TypeHintSubscripted => "_TypeHintSubscripted"
  | TypeHintOriginIsinstanceable => "_TypeHintOriginIsinstanceable"
  | TypeHintOriginIsinstanceableArgs1 => "_TypeHintOriginIsinstanceableArgs1"
  | TypeHintOriginIsinstanceableArgs2 => "_TypeHintOriginIsinstanceableArgs2"
  | TypeHintOriginIsinstanceableArgs3 => "_TypeHintOriginIsinstanceableArgs3"
  end ++ "'>".

(** The Python runtime as doorsub.py sees it: class objects (the values of
    [_origin]) with [==]/[is] on them, the builtin [issubclass], [typing.Any],
    and hint signs compared by identity. *)
Class PyRuntime : Type := {
  type_ : Type;
  type_eqb : type_ -> type_ -> bool;
  issubclass : type_ -> type_ -> bool;
  Any : type_;
  HintSign : Type;
  sign_is : HintSign -> HintSign -> bool
}.

(** [==] and [is] decide equality of class objects and of signs. *)
Class PyRuntimeLaws (R : PyRuntime) : Prop := {
  type_eqb_spec : forall a b : type_, type_eqb a b = true <-> a = b;
  sign_is_spec : forall a b : HintSign, sign_is a b = true <-> a = b
}.

Section Wrappers.

Context {R : PyRuntime}.

(** A type hint wrapper: its concrete class and the attributes the methods of
    doorsub.py read. *)
Inductive TypeHint : Type :=
  mkTypeHint (cls : WrapperCls) (origin : type_) (sign : HintSign)
             (args_wrapped : list TypeHint).

Definition type_of (h : TypeHint) : WrapperCls :=
  match h with mkTypeHint c _ _ _ => c end.
Definition _origin (h : TypeHint) : type_ :=
  match h with mkTypeHint _ o _ _ => o end.
Definition _hint_sign (h : TypeHint) : HintSign :=
  match h with mkTypeHint _ _ s _ => s end.
Definition _args_wrapped_tuple (h : TypeHint) : list TypeHint :=
  match h with mkTypeHint _ _ _ a => a end.

(** [isinstance(branch, type(self))]. *)
Definition isinstance (branch : TypeHint) (c : WrapperCls) : bool :=
  wrapper_issubclass (type_of branch) c.

(** [_TypeHintSubscripted._is_args_ignorable]. *)
Definition _is_args_ignorable (self : TypeHint) : bool :=
  forallb (fun hint_child => type_eqb (_origin hint_child) Any)
          (_args_wrapped_tuple self).

(** [all(f(a, b) for a, b in zip(xs, ys))]. *)
Definition all_zip (f : TypeHint -> TypeHint -> bool)
    (xs ys : list TypeHint) : bool :=
  forallb (fun p => f (fst p) (snd p)) (combine xs ys).

(** [_TypeHintSubscripted._is_le_branch], with [self_child <= branch_child]
    resolved to the same method on the child.

    Modelled from the spec: [TypeHint.__le__] is defined in doorsuper.py,
    which is not part of the sources; the spec exposes it as
    [is_subtype_of(other)] and describes it as this method applied to
    [other]. *)
Fixpoint _is_le_branch (self branch : TypeHint) {struct self} : bool :=
  match self with
  | mkTypeHint c o _ args =>
      if _is_args_ignorable branch then issubclass o (_origin branch)
      else
        isinstance branch c &&
        issubclass o (_origin branch) &&
        (fix all_le (xs ys : list TypeHint) {struct xs} : bool :=
           match xs, ys with
           | self_child :: xs', branch_child :: ys' =>
               _is_le_branch self_child branch_child && all_le xs' ys'
           | _, _ => true
           end) args (_args_wrapped_tuple branch)
  end.

Definition is_subtype_of (self other : TypeHint) : bool :=
  _is_le_branch self other.

(** [TypeHint.__eq__] dispatching on [type(self)]:
    [_TypeHintOriginIsinstanceable._is_equal] for the classes inheriting it.

    Modelled from the spec: the superclass [_is_equal] is defined in
    doorsuper.py, which is not part of the sources; the spec gives it as the
    induced relation [A <= B and B <= A]. *)
Fixpoint equals (self other : TypeHint) {struct self} : bool :=
  match self with
  | mkTypeHint c o s args =>
      if is_isinstanceable c then
        if _is_args_ignorable self && _is_args_ignorable other then
          type_eqb o (_origin other)
        else if negb (sign_is s (_hint_sign other)) ||
                negb (Nat.eqb (List.length args) (List.length (_args_wrapped_tuple other))) then
          false
        else
          (fix all_eq (xs ys : list TypeHint) {struct xs} : bool :=
             match xs, ys with
             | this_child :: xs', that_child :: ys' =>
                 equals this_child that_child && all_eq xs' ys'
             | _, _ => true
             end) args (_args_wrapped_tuple other)
      else
        is_subtype_of self other && is_subtype_of other self
  end.

(** [_TypeHintOriginIsinstanceable._is_equal] as a method of its own. *)
Definition _is_equal (self other : TypeHint) : bool :=
  if _is_args_ignorable self && _is_args_ignorable other then
    type_eqb (_origin self) (_origin other)
  else if negb (sign_is (_hint_sign self) (_hint_sign other)) ||
          negb (Nat.eqb (List.length (_args_wrapped_tuple self))
                        (List.length (_args_wrapped_tuple other))) then
    false
  else
    all_zip equals (_args_wrapped_tuple self) (_args_wrapped_tuple other).

(** The arity invariant of a wrapper: a leaf holds exactly as many child
    wrappers as its class expects (what [_make_args] enforces). *)
Definition arity_ok (h : TypeHint) : Prop :=
  _args_len_expected (type_of h) = Some (List.length (_args_wrapped_tuple h)).

End Wrappers.

(** [str(self._args_len_expected)]. *)
Definition str_of_expected (n : option nat) : string :=
  match n with
  | Some k => str_of_nat k
  | None => "None"
  end.

(** [len(args) != self._args_len_expected]. *)
Definition len_differs (len : nat) (expected : option nat) : bool :=
  match expected with
  | Some k => negb (Nat.eqb len k)
  | None => true
  end.

(** [_TypeHintOriginIsinstanceable._make_args] on a wrapper whose class is
    [c]; [super_make_args] is the tuple the superclass method returns for the
    wrapped hint (doorsuper.py is not part of the sources). *)
Definition _make_args {hint : Type} (c : WrapperCls)
    (super_make_args : list hint) : result (list hint) :=
  let args := super_make_args in
  if len_differs (List.length args) (_args_len_expected c) then
    Raise (mkException BeartypeDoorException
             (str_of_cls c ++ " type must have " ++
              str_of_expected (_args_len_expected c) ++
              " argument(s), but got " ++
              str_of_nat (List.length args) ++ "."))
  else Return args.

(** Modelled from the spec: the constructor of a wrapper is defined in
    doorsuper.py, which is not part of the sources. Per the spec an arity
    mismatch is fatal at construction: the children are materialized by
    [_make_args] (the override on the isinstanceable classes, the inherited
    method elsewhere) and each one is wrapped by [wrap_child]; nothing is
    built when materialization raises. *)
Definition wrap {R : PyRuntime} {hint : Type} (c : WrapperCls)
    (origin : type_) (sign : HintSign) (super_make_args : list hint)
    (wrap_child : hint -> TypeHint) : result TypeHint :=
  match (if is_isinstanceable c then _make_args c super_make_args
         else Return super_make_args) with
  | Raise e => Raise e
  | Return args => Return (mkTypeHint c origin sign (map wrap_child args))
  end.

End Door.

(** ** utilpepgeneric.py *)
Module Generic.

(** The collaborators of utilpepgeneric.py: arbitrary Python objects with
    [repr] and [isinstance(_, type)], the PEP 484 and PEP 585 testers and
    getters of utilpep484.py and utilpep585.py, and
    [get_hint_pep_origin_or_none] of utilpepget.py. *)
Class HintRuntime : Type := {
  object : Type;
  repr : object -> string;
  is_type : object -> bool;
  is_hint_pep484_generic : object -> bool;
  is_hint_pep585_generic : object -> bool;
  get_hint_pep484_generic_bases_unerased : object -> result (list object);
  get_hint_pep585_generic_bases_unerased : object -> result (list object);
  get_hint_pep_origin_or_none : object -> option object
}.

Section Generic.

Context {H : HintRuntime}.

(** [is_hint_pep484585_generic] (memoization leaves the value unchanged). *)
Definition is_hint_pep484585_generic (hint : object) : bool :=
  is_hint_pep484_generic hint || is_hint_pep585_generic hint.

(** [not t] for a tuple [t]. *)
Definition tuple_is_empty (t : list object) : bool :=
  match t with
  | [] => true
  | _ :: _ => false
  end.

(** The conditional expression choosing the dialect-specific getter. *)
Definition bases_unerased_dispatch (hint : object) : result (list object) :=
  if is_hint_pep585_generic hint
  then get_hint_pep585_generic_bases_unerased hint
  else get_hint_pep484_generic_bases_unerased hint.

Definition get_hint_pep484585_generic_bases_unerased (hint : object)
    (exception_cls : ExceptionCls) (exception_prefix : string)
    : result (list object) :=
  match bases_unerased_dispatch hint with
  | Raise e => Raise e
  | Return hint_pep_generic_bases_unerased =>
      if tuple_is_empty hint_pep_generic_bases_unerased then
        Raise (mkException exception_cls
                 (exception_prefix ++ "PEP 484 or 585 generic " ++
                  repr hint ++ " subclasses no superclasses."))
      else Return hint_pep_generic_bases_unerased
  end.

(** [isinstance(x, type)] where [x] may be [None]. *)
Definition isinstance_type (x : option object) : bool :=
  match x with
  | Some o => is_type o
  | None => false
  end.

Definition get_hint_pep484585_generic_type_or_none (hint : object)
    : option object :=
  let hint_origin := get_hint_pep_origin_or_none hint in
  if isinstance_type hint_origin then hint_origin
  else if is_type hint then Some hint
  else None.

Definition get_hint_pep484585_generic_type (hint : object)
    (exception_cls : ExceptionCls) (exception_prefix : string)
    : result object :=
  let hint_generic_type := get_hint_pep484585_generic_type_or_none hint in
  match hint_generic_type with
  | None =>
      Raise (mkException exception_cls
               (exception_prefix ++ "PEP 484 or 585 generic " ++
                repr hint ++
                " not generic (i.e., originates from no isinstanceable class)."))
  | Some t => Return t
  end.

End Generic.

End Generic.

(** ** utiltextident.py *)
Module Ident.

(** The builtin [str.isidentifier]. *)
Class PyStr : Type := {
  isidentifier : string -> bool
}.

(** The delimiter ['.']. *)
Definition dot : ascii := "."%char.

(** [c in text] for a one-character string [c]. *)
Fixpoint char_in (c : ascii) (text : string) : bool :=
  match text with
  | EmptyString => false
  | String x rest => Ascii.eqb x c || char_in c rest
  end.

(** [text.split(sep)] for a one-character separator: the pieces between
    consecutive occurrences of [sep], empty pieces included. *)
Fixpoint split (sep : ascii) (text : string) : list string :=
  match text with
  | EmptyString => [EmptyString]
  | String x rest =>
      if Ascii.eqb x sep then EmptyString :: split sep rest
      else match split sep rest with
           | head :: tail => String x head :: tail
           | [] => [String x EmptyString]
           end
  end.

(** [sep.join(parts)]. *)
Fixpoint join (sep : ascii) (parts : list string) : string :=
  match parts with
  | [] => EmptyString
  | [p] => p
  | p :: rest => p ++ String sep (join sep rest)
  end.

Section Ident.

Context {S : PyStr}.

(** The [for] loop of [is_identifier], returning at the first substring that
    is not an identifier. *)
Fixpoint is_identifier_loop (text_basenames : list string) : bool :=
  match text_basenames with
  | [] => true
  | text_basename :: rest =>
      if negb (isidentifier text_basename) then false
      else is_identifier_loop rest
  end.

Definition is_identifier (text : string) : bool :=
  if negb (char_in dot text) then isidentifier text
  else is_identifier_loop (split dot text).

End Ident.

End Ident.

(** ** A concrete runtime *)

(** A small Python world on which every definition above evaluates. *)
Module Demo.
Import Door Generic.

(** Classes: [object], [int], [str], [list], [dict] and [typing.Any]. *)
Inductive DemoType : Type :=
  | t_object | t_int | t_str | t_list | t_dict | t_Any.

Definition DemoType_eqb (a b : DemoType) : bool :=
  match a, b with
  | t_object, t_object | t_int, t_int | t_str, t_str
  | t_list, t_list | t_dict, t_dict | t_Any, t_Any => true
  | _, _ => false
  end.

(** Every class subclasses itself and [object]. *)
Definition demo_issubclass (a b : DemoType) : bool :=
  DemoType_eqb a b || DemoType_eqb b t_object.

(** Signs; [SignNone] stands for the absence of a sign. *)
Inductive DemoSign : Type :=
  | HintSignList | HintSignSequence | HintSignDict | SignNone.

Definition DemoSign_is (a b : DemoSign) : bool :=
  match a, b with
  | HintSignList, HintSignList | HintSignSequence, HintSignSequence
  | HintSignDict, HintSignDict | SignNone, SignNone => true
  | _, _ => false
  end.

#[export] Instance demo_runtime : PyRuntime := {|
  type_ := DemoType;
  type_eqb := DemoType_eqb;
  issubclass := demo_issubclass;
  Any := t_Any;
  HintSign := DemoSign;
  sign_is := DemoSign_is
|}.

(** Wrappers without children. *)
Definition hint_int : TypeHint := mkTypeHint TypeHintSubscripted t_int SignNone [].
Definition hint_str : TypeHint := mkTypeHint TypeHintSubscripted t_str SignNone [].
Definition hint_object : TypeHint :=
  mkTypeHint TypeHintSubscripted t_object SignNone [].
Definition hint_Any : TypeHint := mkTypeHint TypeHintSubscripted t_Any SignNone [].
Definition bare_list : TypeHint :=
  mkTypeHint TypeHintSubscripted t_list HintSignList [].
Definition bare_dict : TypeHint :=
  mkTypeHint TypeHintSubscripted t_dict HintSignDict [].

(** [List[int]], [List[object]], [List[Any]], [Dict[str, int]],
    [Dict[Any, Any]]. *)
Definition list_int : TypeHint :=
  mkTypeHint TypeHintOriginIsinstanceableArgs1 t_list HintSignList [hint_int].
Definition list_object : TypeHint :=
  mkTypeHint TypeHintOriginIsinstanceableArgs1 t_list HintSignList [hint_object].
Definition list_Any : TypeHint :=
  mkTypeHint TypeHintOriginIsinstanceableArgs1 t_list HintSignList [hint_Any].
Definition dict_str_int : TypeHint :=
  mkTypeHint TypeHintOriginIsinstanceableArgs2 t_dict HintSignDict
             [hint_str; hint_int].
Definition dict_Any_Any : TypeHint :=
  mkTypeHint TypeHintOriginIsinstanceableArgs2 t_dict HintSignDict
             [hint_Any; hint_Any].

(** Objects handed to utilpepgeneric.py. *)
Inductive DemoObject : Type :=
  | obj_int                (* the class int *)
  | obj_list               (* the class list *)
  | obj_list_int           (* list[int] *)
  | obj_abc_Iterable       (* collections.abc.Iterable *)
  | obj_abc_Container      (* collections.abc.Container *)
  | obj_Iterable_T         (* typing.Iterable[T] *)
  | obj_Container_T        (* typing.Container[T] *)
  | obj_MuhIterable        (* class MuhIterable(Iterable[T], Container[T]) *)
  | obj_MuhList            (* class MuhList(list[int]) *)
  | obj_typing_Union       (* typing.Union *)
  | obj_Union_str_int      (* typing.Union[str, int] *)
  | obj_Hollow.            (* reported generic, no pseudo-superclass *)

Definition demo_repr (o : DemoObject) : string :=
  match o with
  | obj_int => "<class 'int'>"
  | obj_list => "<class 'list'>"
  | obj_list_int => "list[int]"
  | obj_abc_Iterable => "<class 'collections.abc.Iterable'>"
  | obj_abc_Container => "<class 'collections.abc.Container'>"
  | obj_Iterable_T => "typing.Iterable[~T]"
  | obj_Container_T => "typing.Container[~T]"
  | obj_MuhIterable => "<class 'MuhIterable'>"
  | obj_MuhList => "<class 'MuhList'>"
  | obj_typing_Union => "typing.Union"
  | obj_Union_str_int => "typing.Union[str, int]"
  | obj_Hollow => "<class 'Hollow'>"
  end.

Definition demo_is_type (o : DemoObject) : bool :=
  match o with
  | obj_int | obj_list | obj_abc_Iterable | obj_abc_Container
  | obj_MuhIterable | obj_MuhList | obj_Hollow => true
  | _ => false
  end.

Definition demo_is_484 (o : DemoObject) : bool :=
  match o with
  | obj_MuhIterable | obj_Hollow => true
  | _ => false
  end.

Definition demo_is_585 (o : DemoObject) : bool :=
  match o with
  | obj_MuhList => true
  | _ => false
  end.

Definition demo_not_generic (o : DemoObject) : PyException :=
  mkException BeartypeDecorHintPepException
    ("Type hint " ++ demo_repr o ++ " not generic.").

Definition demo_bases_484 (o : DemoObject) : result (list DemoObject) :=
  match o with
  | obj_MuhIterable => Return [obj_Iterable_T; obj_Container_T]
  | obj_Hollow => Return []
  | _ => Raise (demo_not_generic o)
  end.

Definition demo_bases_585 (o : DemoObject) : result (list DemoObject) :=
  match o with
  | obj_MuhList => Return [obj_list_int]
  | _ => Raise (demo_not_generic o)
  end.

Definition demo_origin (o : DemoObject) : option DemoObject :=
  match o with
  | obj_list_int => Some obj_list
  | obj_Iterable_T => Some obj_abc_Iterable
  | obj_Container_T => Some obj_abc_Container
  | obj_Union_str_int => Some obj_typing_Union
  | _ => None
  end.

#[export] Instance demo_hints : HintRuntime := {|
  object := DemoObject;
  repr := demo_repr;
  is_type := demo_is_type;
  is_hint_pep484_generic := demo_is_484;
  is_hint_pep585_generic := demo_is_585;
  get_hint_pep484_generic_bases_unerased := demo_bases_484;
  get_hint_pep585_generic_bases_unerased := demo_bases_585;
  get_hint_pep_origin_or_none := demo_origin
|}.

End Demo.

(** ** utilfunccode.py: source code of callables *)
Module FuncCode.

(** The double quote and the newline, as one-character strings. *)
Definition dquote : string := String (ascii_of_nat 34) EmptyString.
Definition newline : string := String (ascii_of_nat 10) EmptyString.

(** [exception.__class__.__name__]. *)
Definition cls_name (c : ExceptionCls) : string :=
  match c with
  | BeartypeDoorException => "BeartypeDoorException"
  | BeartypeDecorHintPep484585Exception => "BeartypeDecorHintPep484585Exception"
  | BeartypeDecorHintPepException => "BeartypeDecorHintPepException"
  | OtherException name => name
  end.

(** An emitted warning: the class passed to [warn] (by name) and the text. *)
Record PyWarning : Type := mkWarning {
  warning_cls_name : string;
  warning_msg : string
}.

(** A node of an abstract syntax tree as [_LambdaNodeUnparser] sees it: a
    [Lambda] node with its [lineno], or a node of another class; in both
    cases the child nodes in the order [generic_visit] walks them. *)
Inductive AST : Type :=
  | Lambda (lineno : nat) (children : list AST)
  | OtherNode (children : list AST).

(** The attributes read from a code object. *)
Record CodeType : Type := mkCodeType {
  co_firstlineno : nat;
  co_filename : string
}.

(** The collaborators of the getters: the testers of utilfunctest.py,
    [get_func_codeobj] of utilfunccodeobj.py, [inspect.getsource] and
    [inspect.findsource], [ast.parse] and [ast.unparse], and the subclass
    tests that the [except OSError] and [except RecursionError] clauses
    perform. *)
Class FuncRuntime : Type := {
  func : Type;
  func_repr : func -> string;
  is_func_lambda : func -> bool;
  die_unless_func_python : func -> ExceptionCls -> result unit;
  getsource : func -> result string;
  findsource : func -> result (list string * nat);
  get_func_codeobj : func -> result CodeType;
  ast_parse : string -> result AST;
  ast_unparse : AST -> result string;
  is_OSError : ExceptionCls -> bool;
  is_RecursionError : ExceptionCls -> bool
}.

Definition LAMBDA_CODE_FILESIZE_MAX : N := 1000000%N.

Section FuncCode.

Context {F : FuncRuntime}.

Definition get_func_code_lines_or_none (f : func)
    (exception_cls : ExceptionCls) : result (option string) :=
  match die_unless_func_python f exception_cls with
  | Raise e => Raise e
  | Return _ =>
      match getsource f with
      | Return code => Return (Some code)
      | Raise e => if is_OSError (exc_cls e) then Return None else Raise e
      end
  end.

Definition get_func_file_code_lines_or_none (f : func)
    (exception_cls : ExceptionCls) : result (option string) :=
  match die_unless_func_python f exception_cls with
  | Raise e => Raise e
  | Return _ =>
      match findsource f with
      | Return (func_file_code_lines, _) =>
          Return (Some (String.concat "" func_file_code_lines))
      | Raise e => if is_OSError (exc_cls e) then Return None else Raise e
      end
  end.

(** [_LambdaNodeUnparser.visit] on [node], threading the list
    [lambdas_code]: [visit_Lambda] on a [Lambda] node, [generic_visit]
    elsewhere; an exception of [ast.unparse] ends the walk. *)
Fixpoint visit (lambda_lineno : nat) (node : AST) (lambdas_code : list string)
    {struct node} : result (list string) :=
  let generic_visit :=
    fix generic_visit (children : list AST) (lambdas_code : list string)
        {struct children} : result (list string) :=
      match children with
      | [] => Return lambdas_code
      | child :: rest =>
          match visit lambda_lineno child lambdas_code with
          | Raise e => Raise e
          | Return lambdas_code' => generic_visit rest lambdas_code'
          end
      end in
  match node with
  | Lambda lineno children =>
      if Nat.eqb lineno lambda_lineno then
        match ast_unparse node with
        | Raise e => Raise e
        | Return code => generic_visit children (lambdas_code ++ [code])%list
        end
      else generic_visit children lambdas_code
  | OtherNode children => generic_visit children lambdas_code
  end.

(** The label of a lambda in warnings and exceptions. *)
Definition func_label_of (f : func) (func_codeobj : CodeType) : string :=
  "Lambda function " ++ func_repr f ++ " declared on line " ++
  str_of_nat (co_firstlineno func_codeobj) ++ " of file " ++
  dquote ++ co_filename func_codeobj ++ dquote ++ " ".

(** The body of the [try] block of [get_func_code_or_none]: the warnings it
    emits and how it ends. *)
Definition parse_lambda (f : func) (exception_cls : ExceptionCls)
    (warning_cls : string) (lambda_file_code : string)
    (func_codeobj : CodeType) (func_label : string)
    : list PyWarning * result (option string) :=
  match ast_parse lambda_file_code with
  | Raise e => ([], Raise e)
  | Return ast_tree =>
      match visit (co_firstlineno func_codeobj) ast_tree [] with
      | Raise e => ([], Raise e)
      | Return lambdas_code =>
          match lambdas_code with
          | [] =>
              ([], Raise (mkException exception_cls
                            (func_label ++ " not found.")))
          | first :: _ =>
              if Nat.leb 2 (List.length lambdas_code) then
                let lambdas_code_str :=
                  String.concat (newline ++ "    ") lambdas_code in
                ([mkWarning warning_cls
                    (func_label ++ " ambiguous, as that line defines " ++
                     str_of_nat (List.length lambdas_code) ++ " lambdas; " ++
                     "arbitrarily selecting first lambda:" ++ newline ++
                     lambdas_code_str)],
                 Return (Some first))
              else ([], Return (Some first))
          end
      end
  end.

(** [get_func_code_or_none] as defined for Python >= 3.9. *)
Definition get_func_code_or_none (f : func) (exception_cls : ExceptionCls)
    (warning_cls : string) : list PyWarning * result (option string) :=
  let fallback := get_func_code_lines_or_none f exception_cls in
  if is_func_lambda f then
    match get_func_file_code_lines_or_none f exception_cls with
    | Raise e => ([], Raise e)
    | Return None => ([], fallback)
    | Return (Some lambda_file_code) =>
        if String.eqb lambda_file_code "" then ([], fallback)
        else
          match get_func_codeobj f with
          | Raise e => ([], Raise e)
          | Return func_codeobj =>
              let func_label := func_label_of f func_codeobj in
              if N.leb LAMBDA_CODE_FILESIZE_MAX
                       (N.of_nat (String.length lambda_file_code)) then
                ([mkWarning warning_cls
                    (func_label ++ " not parsable with standard " ++
                     dquote ++ "ast" ++ dquote ++
                     " module, as file size exceeds safe maximum " ++
                     "1000000MB.")],
                 fallback)
              else
                match parse_lambda f exception_cls warning_cls
                        lambda_file_code func_codeobj func_label with
                | (warnings, Raise e) =>
                    if is_RecursionError (exc_cls e) then
                      ((warnings ++
                        [mkWarning warning_cls
                           (func_label ++ " not parsable with standard " ++
                            dquote ++ "ast" ++ dquote ++
                            " module, as code complexity exceeds " ++
                            "safe recursion limits (i.e., " ++ dquote ++
                            cls_name (exc_cls e) ++ ": " ++ exc_msg e ++
                            dquote ++ ").")])%list,
                       fallback)
                    else (warnings, Raise e)
                | (warnings, Return code) => (warnings, Return code)
                end
          end
    end
  else ([], fallback).

(** [get_func_code_or_none] as defined for Python < 3.9. *)
Definition get_func_code_or_none_pre39 (f : func)
    (exception_cls : ExceptionCls) (warning_cls : string)
    : list PyWarning * result (option string) :=
  ([], get_func_code_lines_or_none f exception_cls).

End FuncCode.

End FuncCode.

(** ** utilfunccode.py: label of a callable *)
Module FuncLabel.

(** The values the label can take: a string, or [None] when an attribute
    holds it. *)
Inductive PyVal : Type :=
  | VStr (s : string)
  | VNone.

(** Truthiness of such a value. *)
Definition truthy (v : PyVal) : bool :=
  match v with
  | VStr s => negb (String.eqb s "")
  | VNone => false
  end.

(** What [get_func_code_label] observes of the objects it is given: the
    builtins [callable], [isinstance(_, CallableTypes)], [isinstance(_, type)]
    and [type], [get_func_unwrapped_codeobj_or_none] of utilfunccodeobj.py,
    the attributes [__module__], [co_filename] and [__file__] (the last two
    possibly absent), and the dictionary [sys.modules]. *)
Class ObjRuntime : Type := {
  pyobj : Type;
  obj_repr : pyobj -> string;
  callable : pyobj -> bool;
  is_CallableTypes : pyobj -> bool;
  obj_is_type : pyobj -> bool;
  type_of_obj : pyobj -> pyobj;
  codeobj : Type;
  get_func_unwrapped_codeobj_or_none : pyobj -> option codeobj;
  getattr_co_filename : codeobj -> option PyVal;
  attr_module : pyobj -> PyVal;
  module_ : Type;
  sys_modules : string -> option module_;
  getattr_file : module_ -> option PyVal
}.

(** [getattr(obj, name, default)] given the attribute if there is one. *)
Definition getattr_default (attr : option PyVal) (default : PyVal) : PyVal :=
  match attr with
  | Some v => v
  | None => default
  end.

Definition BeartypeUtilCallableException : ExceptionCls :=
  OtherException "_BeartypeUtilCallableException".
Definition KeyError : ExceptionCls := OtherException "KeyError".

Section FuncLabel.

Context {O : ObjRuntime}.

Definition get_func_code_label (f : pyobj) : result PyVal :=
  if negb (callable f) then
    Raise (mkException BeartypeUtilCallableException
             (obj_repr f ++ " not callable."))
  else
    let func_origin_label := VStr "<string>" in
    if is_CallableTypes f then
      let func_origin_label := VStr "<C-based>" in
      let func_codeobj := get_func_unwrapped_codeobj_or_none f in
      match func_codeobj with
      | Some code =>
          Return (getattr_default (getattr_co_filename code) func_origin_label)
      | None => Return func_origin_label
      end
    else
      let f := if negb (obj_is_type f) then type_of_obj f else f in
      let func_module_name := attr_module f in
      match func_module_name with
      | VStr name =>
          if truthy func_module_name then
            match sys_modules name with
            | Some module =>
                Return (getattr_default (getattr_file module) func_origin_label)
            | None => Raise (mkException KeyError ("'" ++ name ++ "'"))
            end
          else Return func_origin_label
      | VNone => Return func_origin_label
      end.

End FuncLabel.

End FuncLabel.

(** ** Auxiliary notions on syntax trees *)
Module FuncCodeAux.
Import FuncCode.



Section Aux.

Context {F : FuncRuntime}.

(** [NodeVisitor.generic_visit] on the children of a node. *)
Fixpoint generic_visit (lambda_lineno : nat) (children : list AST)
    (lambdas_code : list string) {struct children} : result (list string) :=
  match children with
  | [] => Return lambdas_code
  | child :: rest =>
      match visit lambda_lineno child lambdas_code with
      | Raise e => Raise e
      | Return lambdas_code' => generic_visit lambda_lineno rest lambdas_code'
      end
  end.


End Aux.

End FuncCodeAux.

(** ** Auxiliary notions on wrappers *)
Module DoorAux.
Import Door.

Section Aux.

Context {R : PyRuntime}.

(** The wrapper [h] with the sign of every node replaced by [s0]. *)
Fixpoint with_sign (s0 : HintSign) (h : TypeHint) : TypeHint :=
  match h with
  | mkTypeHint c o _ args => mkTypeHint c o s0 (map (with_sign s0) args)
  end.

(** [A] and [B] are aligned when both or neither are of an isinstanceable
    class, and so are their children position by position, as far as both
    have children. *)
Fixpoint kind_aligned (A B : TypeHint) {struct A} : bool :=
  match A with
  | mkTypeHint c _ _ args =>
      Bool.eqb (is_isinstanceable c) (is_isinstanceable (type_of B)) &&
      (fix go (xs ys : list TypeHint) {struct xs} : bool :=
         match xs, ys with
         | x :: xs', y :: ys' => kind_aligned x y && go xs' ys'
         | _, _ => true
         end) args (_args_wrapped_tuple B)
  end.

End Aux.

End DoorAux.

(** ** A concrete [str.isidentifier] *)

(** [str.isidentifier] restricted to ASCII text: a letter or an underscore,
    followed by letters, digits and underscores. *)
Module DemoIdent.
Import Ident.

Definition is_start (c : ascii) : bool :=
  let n := nat_of_ascii c in
  (Nat.leb 65 n && Nat.leb n 90) || (Nat.leb 97 n && Nat.leb n 122) ||
  Nat.eqb n 95.

Definition is_continue (c : ascii) : bool :=
  let n := nat_of_ascii c in
  is_start c || (Nat.leb 48 n && Nat.leb n 57).

Fixpoint all_continue (s : string) : bool :=
  match s with
  | EmptyString => true
  | String c rest => is_continue c && all_continue rest
  end.

Definition ascii_isidentifier (s : string) : bool :=
  match s with
  | EmptyString => false
  | String c rest => is_start c && all_continue rest
  end.

#[export] Instance demo_str : PyStr := {| isidentifier := ascii_isidentifier |}.

End DemoIdent.

(** ** Concrete callables *)
Module DemoFunc.
Import FuncCode FuncLabel.

(** A function defined in a file, a lambda alone on its line, two lambdas
    sharing a line, a lambda whose file was edited after it was loaded, a
    lambda created in memory, and a builtin. *)
Inductive DemoFunc : Type :=
  | f_def | f_lambda | f_lambda_pair | f_lambda_moved | f_lambda_exec
  | f_builtin.

Definition demo_func_repr (f : DemoFunc) : string :=
  match f with
  | f_def => "<function muh_func>"
  | f_lambda | f_lambda_pair | f_lambda_moved | f_lambda_exec =>
      "<function <lambda>>"
  | f_builtin => "<built-in function len>"
  end.

Definition demo_is_lambda (f : DemoFunc) : bool :=
  match f with
  | f_lambda | f_lambda_pair | f_lambda_moved | f_lambda_exec => true
  | _ => false
  end.

Definition demo_die_unless_python (f : DemoFunc) (exception_cls : ExceptionCls)
    : result unit :=
  match f with
  | f_builtin =>
      Raise (mkException exception_cls
               ("Callable " ++ demo_func_repr f ++ " not pure-Python."))
  | _ => Return tt
  end.

Definition demo_OSError : PyException :=
  mkException (OtherException "OSError") "could not get source code".

Definition demo_line (f : DemoFunc) : string :=
  match f with
  | f_def => "def muh_func(): pass"
  | f_lambda | f_lambda_moved => "muh = lambda: 0"
  | f_lambda_pair => "muhs = lambda: 1, lambda: 2"
  | _ => ""
  end.

Definition demo_getsource (f : DemoFunc) : result string :=
  match f with
  | f_def | f_lambda | f_lambda_pair | f_lambda_moved => Return (demo_line f)
  | _ => Raise demo_OSError
  end.

Definition demo_findsource (f : DemoFunc) : result (list string * nat) :=
  match f with
  | f_def | f_lambda | f_lambda_pair | f_lambda_moved =>
      Return ([demo_line f], 0)
  | _ => Raise demo_OSError
  end.

Definition demo_codeobj (f : DemoFunc) : result CodeType :=
  match f with
  | f_lambda_moved => Return (mkCodeType 7 "muh.py")
  | _ => Return (mkCodeType 1 "muh.py")
  end.

Definition demo_ast_parse (code : string) : result AST :=
  if String.eqb code "muh = lambda: 0" then
    Return (OtherNode [OtherNode [OtherNode []; Lambda 1 [OtherNode []]]])
  else if String.eqb code "muhs = lambda: 1, lambda: 2" then
    Return (OtherNode [OtherNode [OtherNode [];
                                  OtherNode [Lambda 1 [OtherNode []];
                                             Lambda 1 [OtherNode []; OtherNode []]]]])
  else Raise (mkException (OtherException "SyntaxError") "invalid syntax").

Definition demo_ast_unparse (node : AST) : result string :=
  match node with
  | Lambda _ [_] => Return "lambda: 1"
  | Lambda _ _ => Return "lambda: 2"
  | OtherNode _ => Return "..."
  end.

Definition demo_is_OSError (c : ExceptionCls) : bool :=
  match c with
  | OtherException name =>
      String.eqb name "OSError" || String.eqb name "FileNotFoundError"
  | _ => false
  end.

Definition demo_is_RecursionError (c : ExceptionCls) : bool :=
  match c with
  | OtherException name => String.eqb name "RecursionError"
  | _ => false
  end.

#[export] Instance demo_funcs : FuncRuntime := {|
  func := DemoFunc;
  func_repr := demo_func_repr;
  is_func_lambda := demo_is_lambda;
  die_unless_func_python := demo_die_unless_python;
  getsource := demo_getsource;
  findsource := demo_findsource;
  get_func_codeobj := demo_codeobj;
  ast_parse := demo_ast_parse;
  ast_unparse := demo_ast_unparse;
  is_OSError := demo_is_OSError;
  is_RecursionError := demo_is_RecursionError
|}.

(** Objects for [get_func_code_label]: a function of a file, a builtin, a
    class, an instance of that class defining [__call__], an instance of a
    class whose module is not imported, and an integer. *)
Inductive DemoObj : Type :=
  | o_func | o_len | o_Cls | o_inst | o_Lost | o_lost_inst | o_int_3.

Definition demo_obj_type (o : DemoObj) : DemoObj :=
  match o with
  | o_inst => o_Cls
  | o_lost_inst => o_Lost
  | other => other
  end.

#[export] Instance demo_objs : ObjRuntime := {|
  pyobj := DemoObj;
  obj_repr := fun o => match o with o_int_3 => "3" | _ => "<object>" end;
  callable := fun o => match o with o_int_3 => false | _ => true end;
  is_CallableTypes :=
    fun o => match o with o_func | o_len => true | _ => false end;
  obj_is_type := fun o => match o with o_Cls | o_Lost => true | _ => false end;
  type_of_obj := demo_obj_type;
  codeobj := string;
  get_func_unwrapped_codeobj_or_none :=
    fun o => match o with o_func => Some "muh.py" | _ => None end;
  getattr_co_filename := fun code => Some (VStr code);
  attr_module :=
    fun o => match o with
             | o_Cls => VStr "muh"
             | o_Lost => VStr "lost"
             | _ => VNone
             end;
  module_ := string;
  sys_modules :=
    fun name => if String.eqb name "muh" then Some "/src/muh.py" else None;
  getattr_file := fun file => Some (VStr file)
|}.

End DemoFunc.

(** * Properties of the message texts *)

Lemma string_app_assoc (a b c : string) : (a ++ b) ++ c = a ++ b ++ c.
Proof. induction a as [|ch a IH]; simpl; [reflexivity | now rewrite IH]. Qed.

Lemma contains_prefix (sub post : string) : contains (sub ++ post) sub.
Proof. exists "", post. reflexivity. Qed.

Lemma contains_app_l (pre s sub : string) :
  contains s sub -> contains (pre ++ s) sub.
Proof.
  intros [p [q E]]. exists (pre ++ p), q. rewrite E.
  now rewrite string_app_assoc.
Qed.

(** * Properties of doorsub.py *)
Module DoorFacts.
Import Door.

Section Facts.

Context {R : PyRuntime} {L : PyRuntimeLaws R}.

(** *** Unfolding equations *)

Lemma all_le_zip (xs ys : list TypeHint) :
  (fix all_le (xs ys : list TypeHint) {struct xs} : bool :=
     match xs, ys with
     | self_child :: xs', branch_child :: ys' =>
         _is_le_branch self_child branch_child && all_le xs' ys'
     | _, _ => true
     end) xs ys = all_zip _is_le_branch xs ys.
Proof.
  revert ys. induction xs as [|x xs IH]; intros [|y ys]; try reflexivity.
  unfold all_zip in *. simpl. now rewrite IH.
Qed.

Lemma all_eq_zip (xs ys : list TypeHint) :
  (fix all_eq (xs ys : list TypeHint) {struct xs} : bool :=
     match xs, ys with
     | this_child :: xs', that_child :: ys' =>
         equals this_child that_child && all_eq xs' ys'
     | _, _ => true
     end) xs ys = all_zip equals xs ys.
Proof.
  revert ys. induction xs as [|x xs IH]; intros [|y ys]; try reflexivity.
  unfold all_zip in *. simpl. now rewrite IH.
Qed.

(** The body of [_is_le_branch] as it is written in doorsub.py. *)
Lemma _is_le_branch_eq (self branch : TypeHint) :
  _is_le_branch self branch =
  if _is_args_ignorable branch then issubclass (_origin self) (_origin branch)
  else
    isinstance branch (type_of self) &&
    issubclass (_origin self) (_origin branch) &&
    all_zip is_subtype_of (_args_wrapped_tuple self) (_args_wrapped_tuple branch).
Proof.
  destruct self as [c o s args]. cbn [_is_le_branch type_of _origin _args_wrapped_tuple].
  now rewrite all_le_zip.
Qed.

(** [==] runs the overridden [_is_equal] on the isinstanceable classes and the
    inherited one elsewhere. *)
Lemma equals_eq (self other : TypeHint) :
  equals self other =
  if is_isinstanceable (type_of self) then _is_equal self other
  else is_subtype_of self other && is_subtype_of other self.
Proof.
  destruct self as [c o s args].
  cbn [equals type_of]. unfold _is_equal.
  cbn [_origin _hint_sign _args_wrapped_tuple].
  now rewrite all_eq_zip.
Qed.

(** *** Facts on [zip] and [all] *)

Lemma all_zip_nth (f : TypeHint -> TypeHint -> bool) (xs ys : list TypeHint) :
  all_zip f xs ys = true <->
  forall i a b, nth_error xs i = Some a -> nth_error ys i = Some b ->
                f a b = true.
Proof.
  unfold all_zip. revert ys.
  induction xs as [|x xs IH]; intros ys.
  - simpl. split; [|reflexivity]. intros _ [|i] a b Ha; discriminate Ha.
  - destruct ys as [|y ys].
    + simpl. split; [|reflexivity]. intros _ [|i] a b _ Hb; discriminate Hb.
    + simpl. rewrite andb_true_iff, IH. split.
      * intros [Hxy Hrest] [|i] a b Ha Hb; simpl in Ha, Hb.
        -- now inversion Ha; inversion Hb; subst.
        -- now apply (Hrest i).
      * intros H. split.
        -- now apply (H 0).
        -- intros i a b Ha Hb. now apply (H (S i)).
Qed.

Lemma all_zip_Forall2 (f : TypeHint -> TypeHint -> bool) (xs ys : list TypeHint) :
  List.length xs = List.length ys ->
  (all_zip f xs ys = true <-> Forall2 (fun a b => f a b = true) xs ys).
Proof.
  unfold all_zip. revert ys.
  induction xs as [|x xs IH]; intros [|y ys] Hlen; try discriminate Hlen.
  - simpl. split; auto.
  - simpl. injection Hlen as Hlen. rewrite andb_true_iff, (IH ys Hlen). split.
    + intros [? ?]. now constructor.
    + intros H. inversion H; subst. now split.
Qed.

(** *** Facts on the class hierarchy *)

(** A leaf has no subclass but itself. *)
Lemma isinstance_leaf (branch : TypeHint) (c : WrapperCls) :
  is_leaf c = true ->
  (isinstance branch c = true <-> type_of branch = c).
Proof.
  unfold isinstance. generalize (type_of branch). intros t.
  destruct t, c; cbv; intros Hc; split; intros H; congruence.
Qed.

Lemma leaf_is_isinstanceable (c : WrapperCls) :
  is_leaf c = true -> is_isinstanceable c = true.
Proof. destruct c; cbv; congruence. Qed.

(** *** The subtype test *)

(** C4: when the arguments of [B] are ignorable, [A.is_subtype_of(B)] is
    exactly [issubclass(A.origin, B.origin)], whatever the children of [A];
    in particular it is true as soon as that subclass test holds. *)
Theorem is_subtype_of_ignorable_absorbs (A B : TypeHint) :
  _is_args_ignorable B = true ->
  is_subtype_of A B = issubclass (_origin A) (_origin B) /\
  (issubclass (_origin A) (_origin B) = true -> is_subtype_of A B = true) /\
  (forall c s args,
     is_subtype_of (mkTypeHint c (_origin A) s args) B = is_subtype_of A B).
Proof.
  intros HB. unfold is_subtype_of.
  assert (E : forall X, _is_le_branch X B = issubclass (_origin X) (_origin B)).
  { intros X. rewrite _is_le_branch_eq, HB. reflexivity. }
  split; [apply E|]. split.
  - intros Hsub. now rewrite E.
  - intros c s args. now rewrite !E.
Qed.

(** C2: when the arguments of [other] are not ignorable,
    [self.is_subtype_of(other)] holds exactly when [other] is an instance of
    the class of [self], the origin of [self] subclasses the origin of
    [other], and each child of [self] is a subtype of the child of [other] at
    the same position, for the positions both tuples have; tuples of
    different lengths are compared up to the shorter one. On a leaf class
    being an instance of the class of [self] is having that very class. *)
Theorem is_subtype_of_subscripted (self other : TypeHint) :
  _is_args_ignorable other = false ->
  (is_subtype_of self other = true <->
     isinstance other (type_of self) = true /\
     issubclass (_origin self) (_origin other) = true /\
     (forall i self_child other_child,
        nth_error (_args_wrapped_tuple self) i = Some self_child ->
        nth_error (_args_wrapped_tuple other) i = Some other_child ->
        is_subtype_of self_child other_child = true)) /\
  (is_leaf (type_of self) = true ->
     (isinstance other (type_of self) = true <-> type_of other = type_of self)).
Proof.
  intros Hign. split.
  - unfold is_subtype_of at 1. rewrite _is_le_branch_eq, Hign.
    rewrite !andb_true_iff, all_zip_nth. tauto.
  - intros Hleaf. now apply isinstance_leaf.
Qed.

(** *** The overridden equality *)

(** C3: on a wrapper of an isinstanceable class, [==] goes through three
    cases in order. When the arguments of both operands are ignorable it is
    equality of the origins. Otherwise it is false when the signs differ or
    the numbers of children differ. Otherwise it holds exactly when the
    children are equal position by position. *)
Theorem is_equal_isinstanceable (self other : TypeHint) :
  is_isinstanceable (type_of self) = true ->
  (_is_args_ignorable self = true -> _is_args_ignorable other = true ->
     (equals self other = true <-> _origin self = _origin other)) /\
  (_is_args_ignorable self && _is_args_ignorable other = false ->
     _hint_sign self <> _hint_sign other \/
     List.length (_args_wrapped_tuple self) <>
     List.length (_args_wrapped_tuple other) ->
     equals self other = false) /\
  (_is_args_ignorable self && _is_args_ignorable other = false ->
     _hint_sign self = _hint_sign other ->
     List.length (_args_wrapped_tuple self) =
     List.length (_args_wrapped_tuple other) ->
     (equals self other = true <->
      Forall2 (fun this_child that_child => equals this_child that_child = true)
              (_args_wrapped_tuple self) (_args_wrapped_tuple other))).
Proof.
  intros Hcls. rewrite equals_eq, Hcls. unfold _is_equal.
  split; [|split].
  - intros H1 H2. rewrite H1, H2. simpl. apply type_eqb_spec.
  - intros Hboth Hdiff. rewrite Hboth.
    destruct Hdiff as [Hs | Hl].
    + destruct (sign_is (_hint_sign self) (_hint_sign other)) eqn:E.
      * apply sign_is_spec in E. contradiction.
      * reflexivity.
    + apply Nat.eqb_neq in Hl. rewrite Hl. simpl. now rewrite orb_true_r.
  - intros Hboth Hs Hl. rewrite Hboth.
    apply sign_is_spec in Hs. rewrite Hs.
    pose proof Hl as Hl'. apply Nat.eqb_eq in Hl'. rewrite Hl'. simpl.
    now apply all_zip_Forall2.
Qed.

(** *** Leaves of different classes *)

Lemma _args_len_expected_inj (c d : WrapperCls) (n : nat) :
  _args_len_expected c = Some n -> _args_len_expected d = Some n -> c = d.
Proof. destruct c, d; simpl; congruence. Qed.

Lemma arity_ok_same_class (A B : TypeHint) :
  arity_ok A -> arity_ok B ->
  List.length (_args_wrapped_tuple A) = List.length (_args_wrapped_tuple B) ->
  type_of A = type_of B.
Proof.
  unfold arity_ok. intros HA HB Hlen. rewrite <- Hlen in HB.
  exact (_args_len_expected_inj _ _ _ HA HB).
Qed.

Lemma arity_ok_leaf (A : TypeHint) : arity_ok A -> is_leaf (type_of A) = true.
Proof. unfold arity_ok, is_leaf. intros H. now rewrite H. Qed.

(** C7: two wrappers of different leaf classes, each holding the number of
    children its class expects and each with arguments that are not
    ignorable, are unequal and are subtypes of each other in neither
    direction; the four tests return false. *)
Theorem leaf_mismatch_incomparable (A B : TypeHint) :
  arity_ok A -> arity_ok B ->
  type_of A <> type_of B ->
  _is_args_ignorable A = false -> _is_args_ignorable B = false ->
  equals A B = false /\ equals B A = false /\
  is_subtype_of A B = false /\ is_subtype_of B A = false.
Proof.
  intros HA HB Hne HiA HiB.
  assert (Hlen : List.length (_args_wrapped_tuple A) <>
                 List.length (_args_wrapped_tuple B)).
  { intros Hlen. apply Hne. now apply arity_ok_same_class. }
  assert (Heq : forall X Y : TypeHint,
             arity_ok X -> _is_args_ignorable X = false ->
             List.length (_args_wrapped_tuple X) <>
             List.length (_args_wrapped_tuple Y) ->
             equals X Y = false).
  { intros X Y HX HiX Hl. rewrite equals_eq.
    rewrite (leaf_is_isinstanceable _ (arity_ok_leaf _ HX)).
    unfold _is_equal. rewrite HiX. simpl.
    apply Nat.eqb_neq in Hl. rewrite Hl. simpl. now rewrite orb_true_r. }
  assert (Hle : forall X Y : TypeHint,
             arity_ok X -> _is_args_ignorable Y = false ->
             type_of Y <> type_of X ->
             is_subtype_of X Y = false).
  { intros X Y HX HiY Hc. unfold is_subtype_of.
    rewrite _is_le_branch_eq, HiY.
    destruct (isinstance Y (type_of X)) eqn:E; [|reflexivity].
    apply (isinstance_leaf _ _ (arity_ok_leaf _ HX)) in E. contradiction. }
  repeat split.
  - now apply Heq.
  - apply Heq; auto.
  - apply Hle; auto.
  - now apply Hle.
Qed.

(** *** Wrappers without children *)

(** C10, amended: a wrapper [B] without children has ignorable arguments;
    [A.is_subtype_of(B)] is then [issubclass(A.origin, B.origin)]. For [A] of
    an isinstanceable class, [A == B] is equality of the origins when the
    arguments of [A] are ignorable too, and false when they are not. *)
Theorem empty_args_ignorable (A B : TypeHint) :
  _args_wrapped_tuple B = [] ->
  _is_args_ignorable B = true /\
  is_subtype_of A B = issubclass (_origin A) (_origin B) /\
  (is_isinstanceable (type_of A) = true ->
     (_is_args_ignorable A = true ->
        (equals A B = true <-> _origin A = _origin B)) /\
     (_is_args_ignorable A = false -> equals A B = false)).
Proof.
  intros HB.
  assert (Hign : _is_args_ignorable B = true).
  { unfold _is_args_ignorable. now rewrite HB. }
  split; [exact Hign|]. split.
  - unfold is_subtype_of. now rewrite _is_le_branch_eq, Hign.
  - intros Hcls. rewrite equals_eq, Hcls. unfold _is_equal. rewrite Hign. split.
    + intros HA. rewrite HA. simpl. apply type_eqb_spec.
    + intros HA. rewrite HA. simpl. rewrite HB.
      destruct (_args_wrapped_tuple A) as [|x xs] eqn:E.
      * unfold _is_args_ignorable in HA. rewrite E in HA. discriminate HA.
      * simpl. now rewrite orb_true_r.
Qed.

(** *** Materializing the children *)

Lemma len_differs_spec (len : nat) (c : WrapperCls) (n : nat) :
  _args_len_expected c = Some n ->
  (len_differs len (_args_len_expected c) = true <-> len <> n).
Proof.
  intros H. rewrite H. simpl. rewrite negb_true_iff. apply Nat.eqb_neq.
Qed.

(** C5: on a leaf class expecting [n] children (1, 2 or 3), [_make_args]
    raises [BeartypeDoorException] whenever the tuple it is given has another
    length, with a message that names the class, the expected count and the
    received count; an empty tuple raises as well. It returns only a tuple of
    length [n], and that tuple unchanged. Construction fails with the same
    exception, and a wrapper that is constructed holds the expected number of
    children. *)
Theorem _make_args_checks_arity {hint : Type} (c : WrapperCls) (n : nat)
    (args : list hint) :
  _args_len_expected c = Some n ->
  (1 <= n <= 3) /\
  (List.length args <> n ->
     exists msg,
       _make_args c args = Raise (mkException BeartypeDoorException msg) /\
       contains msg (str_of_cls c) /\
       contains msg ("must have " ++ str_of_nat n ++ " argument(s)") /\
       contains msg ("but got " ++ str_of_nat (List.length args) ++ ".") /\
       forall origin sign (wrap_child : hint -> TypeHint),
         wrap c origin sign args wrap_child =
         Raise (mkException BeartypeDoorException msg)) /\
  (args = [] -> exists e, _make_args c args = Raise e) /\
  (forall a, _make_args c args = Return a ->
             a = args /\ List.length a = n) /\
  (forall origin sign (wrap_child : hint -> TypeHint) h,
     wrap c origin sign args wrap_child = Return h -> arity_ok h).
Proof.
  intros Hn.
  assert (Hrange : 1 <= n <= 3).
  { destruct c; simpl in Hn; inversion Hn; lia. }
  assert (Hleaf : is_isinstanceable c = true).
  { apply leaf_is_isinstanceable. unfold is_leaf. now rewrite Hn. }
  assert (Hraise : List.length args <> n ->
            _make_args c args =
            Raise (mkException BeartypeDoorException
                     (str_of_cls c ++ " type must have " ++ str_of_nat n ++
                      " argument(s), but got " ++
                      str_of_nat (List.length args) ++ "."))).
  { intros Hl. unfold _make_args.
    rewrite (proj2 (len_differs_spec _ c n Hn) Hl). rewrite Hn. reflexivity. }
  assert (Hret : forall a, _make_args c args = Return a ->
                           a = args /\ List.length a = n).
  { intros a. unfold _make_args.
    destruct (len_differs (List.length args) (_args_len_expected c)) eqn:E.
    - discriminate.
    - intros Ha. inversion Ha; subst a. split; [reflexivity|].
      destruct (Nat.eq_dec (List.length args) n) as [|Hne]; [assumption|].
      apply (len_differs_spec _ c n Hn) in Hne. congruence. }
  split; [exact Hrange|]. split; [|split; [|split]].
  - intros Hl. eexists. split; [apply (Hraise Hl)|]. split; [|split; [|split]].
    + apply contains_prefix.
    + apply contains_app_l.
      exists " type ", (", but got " ++ str_of_nat (List.length args) ++ ".").
      rewrite !string_app_assoc. reflexivity.
    + apply contains_app_l.
      exists (" type must have " ++ str_of_nat n ++ " argument(s), "), "".
      rewrite !string_app_assoc. reflexivity.
    + intros origin sign wrap_child. unfold wrap.
      now rewrite Hleaf, (Hraise Hl).
  - intros Hnil. eexists. apply Hraise. subst args. simpl. lia.
  - exact Hret.
  - intros origin sign wrap_child h. unfold wrap. rewrite Hleaf.
    destruct (_make_args c args) as [a|e] eqn:E; [|discriminate].
    intros Hh. inversion Hh; subst h. unfold arity_ok. simpl.
    destruct (Hret a eq_refl) as [_ Hl]. now rewrite length_map, Hl.
Qed.

End Facts.

(** [DemoType_eqb] and [DemoSign_is] decide equality. *)
#[export] Instance demo_laws : PyRuntimeLaws Demo.demo_runtime.
Proof.
  split.
  - intros a b. destruct a, b; simpl; split; intros H; congruence.
  - intros a b. destruct a, b; simpl; split; intros H; congruence.
Qed.

(** *** The theorems on the concrete runtime *)

Section OnDemo.

Import Demo.

Lemma is_subtype_of_ignorable_absorbs_witness :
  _is_args_ignorable list_Any = true /\
  issubclass (_origin list_int) (_origin list_Any) = true /\
  is_subtype_of list_int list_Any = true.
Proof.
  split; [reflexivity|]. split; [reflexivity|].
  apply (is_subtype_of_ignorable_absorbs list_int list_Any); reflexivity.
Defined.

Lemma is_subtype_of_subscripted_witness :
  _is_args_ignorable list_object = false /\
  is_subtype_of list_int list_object = true /\
  is_subtype_of list_object list_int = false.
Proof.
  split; [reflexivity|]. split.
  - apply (proj2 (proj1 (is_subtype_of_subscripted list_int list_object
                           eq_refl))).
    split; [reflexivity|]. split; [reflexivity|].
    intros [|i] a b Ha Hb; simpl in Ha, Hb.
    + inversion Ha; inversion Hb; subst a b. reflexivity.
    + destruct i; discriminate Ha.
  - reflexivity.
Defined.

Lemma is_equal_isinstanceable_witness :
  is_isinstanceable (type_of dict_str_int) = true /\
  (equals dict_str_int dict_str_int = true <->
   Forall2 (fun this_child that_child => equals this_child that_child = true)
           (_args_wrapped_tuple dict_str_int)
           (_args_wrapped_tuple dict_str_int)).
Proof.
  split; [reflexivity|].
  apply (is_equal_isinstanceable (L := demo_laws) dict_str_int dict_str_int);
    reflexivity.
Defined.

Lemma _make_args_checks_arity_witness :
  _args_len_expected TypeHintOriginIsinstanceableArgs2 = Some 2 /\
  exists msg,
    _make_args TypeHintOriginIsinstanceableArgs2 [hint_str; hint_int; hint_int]
    = Raise (mkException BeartypeDoorException msg) /\
    contains msg "must have 2 argument(s)" /\
    contains msg "but got 3.".
Proof.
  split; [reflexivity|].
  destruct (_make_args_checks_arity (R := demo_runtime)
              TypeHintOriginIsinstanceableArgs2 2
              [hint_str; hint_int; hint_int] eq_refl)
    as [_ [Hraise _]].
  destruct (Hraise ltac:(simpl; lia)) as [msg [E [_ [H1 [H2 _]]]]].
  exists msg. auto.
Defined.

Lemma leaf_mismatch_incomparable_witness :
  arity_ok list_int /\ arity_ok dict_str_int /\
  type_of dict_str_int <> type_of list_int /\
  _is_args_ignorable dict_str_int = false /\
  _is_args_ignorable list_int = false /\
  equals dict_str_int list_int = false /\
  equals list_int dict_str_int = false /\
  is_subtype_of dict_str_int list_int = false /\
  is_subtype_of list_int dict_str_int = false.
Proof.
  split; [reflexivity|]. split; [reflexivity|].
  split; [discriminate|]. split; [reflexivity|]. split; [reflexivity|].
  apply (leaf_mismatch_incomparable dict_str_int list_int);
    try reflexivity.
  discriminate.
Defined.

Lemma empty_args_ignorable_witness :
  _args_wrapped_tuple bare_list = [] /\
  _is_args_ignorable bare_list = true /\
  is_subtype_of list_int bare_list =
  issubclass (_origin list_int) (_origin bare_list).
Proof.
  split; [reflexivity|].
  destruct (empty_args_ignorable (L := demo_laws) list_int bare_list eq_refl)
    as [H1 [H2 _]].
  split; [exact H1 | exact H2].
Defined.

(** C10 as stated fails for equality: against the childless [bare_dict],
    [Dict[str, int]] and [Dict[Any, Any]] have the same origin as each other
    and as [bare_dict], and only the second is equal to it. *)
Lemma equals_empty_args_not_origin_alone :
  _args_wrapped_tuple bare_dict = [] /\
  _origin dict_str_int = _origin dict_Any_Any /\
  _origin dict_str_int = _origin bare_dict /\
  equals dict_Any_Any bare_dict = true /\
  equals dict_str_int bare_dict = false.
Proof. repeat split. Qed.

End OnDemo.

End DoorFacts.

(** * Properties of utilpepgeneric.py *)
Module GenericFacts.
Import Generic.

Section Facts.

Context {H : HintRuntime}.

Lemma tuple_is_empty_spec (t : list object) : tuple_is_empty t = true <-> t = [].
Proof. destruct t; simpl; split; intros E; congruence. Qed.

(** The text raised for a generic without pseudo-superclasses carries the
    prefix and the representation of the hint. *)
Lemma no_superclasses_message (prefix : string) (hint : object) :
  let msg := prefix ++ "PEP 484 or 585 generic " ++ repr hint ++
             " subclasses no superclasses." in
  contains msg prefix /\ contains msg (repr hint).
Proof.
  split.
  - apply contains_prefix.
  - apply contains_app_l. exists "PEP 484 or 585 generic ".
    exists " subclasses no superclasses.". reflexivity.
Qed.


(** The getter returns the outcome of the chosen dialect-specific getter
    unless that outcome is the empty tuple, on which it raises. *)
Lemma bases_unerased_guarded (hint : object)
    (exception_cls : ExceptionCls) (exception_prefix : string) :
  (bases_unerased_dispatch hint <> Return [] ->
     get_hint_pep484585_generic_bases_unerased hint exception_cls
       exception_prefix = bases_unerased_dispatch hint) /\
  (bases_unerased_dispatch hint = Return [] ->
     exists msg,
       get_hint_pep484585_generic_bases_unerased hint exception_cls
         exception_prefix = Raise (mkException exception_cls msg) /\
       contains msg exception_prefix /\ contains msg (repr hint)).
Proof.
  unfold get_hint_pep484585_generic_bases_unerased.
  destruct (bases_unerased_dispatch hint) as [[|b t]|e]; simpl.
  - split; [congruence|]. intros _. eexists. split; [reflexivity|].
    apply no_superclasses_message.
  - split; [reflexivity | discriminate].
  - split; [reflexivity | discriminate].
Qed.

(** C9, amended: on a hint that [is_hint_pep484585_generic] accepts, the
    getter tests [is_hint_pep585_generic] first. When that test holds it uses
    [get_hint_pep585_generic_bases_unerased]; otherwise the hint is a PEP 484
    generic and it uses [get_hint_pep484_generic_bases_unerased]. The result
    is the outcome of the getter so chosen, unless that outcome is the empty
    tuple: then [exception_cls] is raised, with a message containing
    [exception_prefix] and [repr(hint)]. *)
Theorem bases_unerased_dispatches (hint : object)
    (exception_cls : ExceptionCls) (exception_prefix : string) :
  is_hint_pep484585_generic hint = true ->
  (is_hint_pep585_generic hint = true ->
     (get_hint_pep585_generic_bases_unerased hint <> Return [] ->
        get_hint_pep484585_generic_bases_unerased hint exception_cls
          exception_prefix = get_hint_pep585_generic_bases_unerased hint) /\
     (get_hint_pep585_generic_bases_unerased hint = Return [] ->
        exists msg,
          get_hint_pep484585_generic_bases_unerased hint exception_cls
            exception_prefix = Raise (mkException exception_cls msg) /\
          contains msg exception_prefix /\ contains msg (repr hint))) /\
  (is_hint_pep585_generic hint = false ->
     is_hint_pep484_generic hint = true /\
     (get_hint_pep484_generic_bases_unerased hint <> Return [] ->
        get_hint_pep484585_generic_bases_unerased hint exception_cls
          exception_prefix = get_hint_pep484_generic_bases_unerased hint) /\
     (get_hint_pep484_generic_bases_unerased hint = Return [] ->
        exists msg,
          get_hint_pep484585_generic_bases_unerased hint exception_cls
            exception_prefix = Raise (mkException exception_cls msg) /\
          contains msg exception_prefix /\ contains msg (repr hint))).
Proof.
  intros Hgen.
  pose proof (bases_unerased_guarded hint exception_cls exception_prefix)
    as Hguard.
  unfold bases_unerased_dispatch in Hguard.
  unfold is_hint_pep484585_generic in Hgen. split.
  - intros H585. rewrite H585 in Hguard. exact Hguard.
  - intros H585. rewrite H585 in Hguard, Hgen.
    rewrite orb_false_r in Hgen. split; [exact Hgen | exact Hguard].
Qed.

(** C8: [get_hint_pep484585_generic_type_or_none] returns the origin of the
    hint when that origin is a class, whether or not the hint is a class;
    else the hint when the hint is a class; else [None]. It is a total
    function. [get_hint_pep484585_generic_type] returns the same class in the
    first two cases and raises [exception_cls], with a message containing
    [exception_prefix] and [repr(hint)], exactly when the former returns
    [None]. *)
Theorem generic_type_resolution (hint : object)
    (exception_cls : ExceptionCls) (exception_prefix : string) :
  (forall origin,
     get_hint_pep_origin_or_none hint = Some origin -> is_type origin = true ->
     get_hint_pep484585_generic_type_or_none hint = Some origin) /\
  (isinstance_type (get_hint_pep_origin_or_none hint) = false ->
     is_type hint = true ->
     get_hint_pep484585_generic_type_or_none hint = Some hint) /\
  (isinstance_type (get_hint_pep_origin_or_none hint) = false ->
     is_type hint = false ->
     get_hint_pep484585_generic_type_or_none hint = None) /\
  (forall cls,
     get_hint_pep484585_generic_type_or_none hint = Some cls ->
     is_type cls = true /\
     get_hint_pep484585_generic_type hint exception_cls exception_prefix
       = Return cls) /\
  (get_hint_pep484585_generic_type_or_none hint = None <->
     exists msg,
       get_hint_pep484585_generic_type hint exception_cls exception_prefix
         = Raise (mkException exception_cls msg) /\
       contains msg exception_prefix /\ contains msg (repr hint)) /\
  (forall e,
     get_hint_pep484585_generic_type hint exception_cls exception_prefix
       = Raise e ->
     exc_cls e = exception_cls /\
     get_hint_pep484585_generic_type_or_none hint = None).
Proof.
  unfold get_hint_pep484585_generic_type,
         get_hint_pep484585_generic_type_or_none.
  destruct (get_hint_pep_origin_or_none hint) as [o|] eqn:Eo; simpl.
  - destruct (is_type o) eqn:Et.
    + split; [intros origin E _; exact E|].
      split; [discriminate|]. split; [discriminate|].
      split; [intros cls E; inversion E; subst; auto|].
      split; [|discriminate].
      split; [discriminate | intros [msg [E _]]; discriminate E].
    + destruct (is_type hint) eqn:Eh.
      * split; [intros origin E Ht; inversion E; congruence|].
        split; [reflexivity|]. split; [discriminate|].
        split; [intros cls E; inversion E; subst; auto|].
        split; [|discriminate].
        split; [discriminate | intros [msg [E _]]; discriminate E].
      * split; [intros origin E Ht; inversion E; congruence|].
        split; [discriminate|]. split; [reflexivity|].
        split; [discriminate|].
        split; [|intros e E; inversion E; auto].
        split; [|reflexivity]. intros _. eexists. split; [reflexivity|].
        split; [apply contains_prefix|].
        apply contains_app_l. exists "PEP 484 or 585 generic ".
        eexists. reflexivity.
  - destruct (is_type hint) eqn:Eh.
    + split; [discriminate|].
      split; [reflexivity|]. split; [discriminate|].
      split; [intros cls E; inversion E; subst; auto|].
      split; [|discriminate].
      split; [discriminate | intros [msg [E _]]; discriminate E].
    + split; [discriminate|].
      split; [discriminate|]. split; [reflexivity|].
      split; [discriminate|].
      split; [|intros e E; inversion E; auto].
      split; [|reflexivity]. intros _. eexists. split; [reflexivity|].
      split; [apply contains_prefix|].
      apply contains_app_l. exists "PEP 484 or 585 generic ".
      eexists. reflexivity.
Qed.

End Facts.

(** *** The theorems on the concrete runtime *)

Section OnDemo.

Import Demo.


Lemma bases_unerased_dispatches_witness :
  is_hint_pep484585_generic (H := demo_hints) obj_MuhIterable = true /\
  is_hint_pep585_generic (HintRuntime := demo_hints) obj_MuhIterable = false /\
  get_hint_pep484585_generic_bases_unerased (H := demo_hints) obj_MuhIterable
    BeartypeDecorHintPep484585Exception ""
  = get_hint_pep484_generic_bases_unerased (HintRuntime := demo_hints)
      obj_MuhIterable.
Proof.
  split; [reflexivity|]. split; [reflexivity|].
  destruct (bases_unerased_dispatches (H := demo_hints) obj_MuhIterable
              BeartypeDecorHintPep484585Exception "" eq_refl)
    as [_ H484].
  destruct (H484 eq_refl) as [_ [Hsame _]].
  apply Hsame. discriminate.
Defined.

(** C9 as stated fails: [obj_Hollow] is accepted by
    [is_hint_pep484585_generic] and is no PEP 585 generic, so the PEP 484
    getter is the chosen one; that getter returns the empty tuple, and the
    result is not that tuple but a raised exception. *)
Lemma bases_unerased_differs_on_empty :
  is_hint_pep484585_generic (H := demo_hints) obj_Hollow = true /\
  is_hint_pep585_generic (HintRuntime := demo_hints) obj_Hollow = false /\
  get_hint_pep484_generic_bases_unerased (HintRuntime := demo_hints) obj_Hollow
  = Return [] /\
  get_hint_pep484585_generic_bases_unerased (H := demo_hints) obj_Hollow
    BeartypeDecorHintPep484585Exception ""
  <> get_hint_pep484_generic_bases_unerased (HintRuntime := demo_hints)
       obj_Hollow.
Proof.
  split; [reflexivity|]. split; [reflexivity|]. split; [reflexivity|].
  discriminate.
Qed.

Lemma generic_type_resolution_witness :
  get_hint_pep_origin_or_none (HintRuntime := demo_hints) obj_list_int
  = Some obj_list /\
  is_type (HintRuntime := demo_hints) obj_list = true /\
  get_hint_pep484585_generic_type_or_none (H := demo_hints) obj_list_int = Some obj_list.
Proof.
  split; [reflexivity|]. split; [reflexivity|].
  apply (generic_type_resolution (H := demo_hints) obj_list_int
           BeartypeDecorHintPep484585Exception ""); reflexivity.
Defined.

End OnDemo.

End GenericFacts.

(** * Properties of utiltextident.py *)
Module IdentFacts.
Import Ident.

Lemma split_not_nil (sep : ascii) (text : string) : split sep text <> [].
Proof.
  destruct text as [|x rest]; simpl; [discriminate|].
  destruct (Ascii.eqb x sep); [discriminate|].
  destruct (split sep rest); discriminate.
Qed.

Lemma split_no_sep (sep : ascii) (text : string) :
  char_in sep text = false -> split sep text = [text].
Proof.
  induction text as [|x rest IH]; simpl; [reflexivity|].
  intros Hin. apply orb_false_iff in Hin. destruct Hin as [Hx Hrest].
  rewrite Hx, (IH Hrest). reflexivity.
Qed.

(** Splitting at a separator placed between two strings splits both. *)
Lemma split_app (sep : ascii) (a b : string) :
  split sep (a ++ String sep b) = (split sep a ++ split sep b)%list.
Proof.
  induction a as [|x a IH]; simpl.
  - now rewrite Ascii.eqb_refl.
  - destruct (Ascii.eqb x sep); [now rewrite IH|].
    rewrite IH. destruct (split sep a) as [|h t] eqn:E.
    + now destruct (split_not_nil sep a).
    + reflexivity.
Qed.

Lemma split_pieces_no_sep (sep : ascii) (text : string) :
  Forall (fun piece => char_in sep piece = false) (split sep text).
Proof.
  induction text as [|x rest IH]; simpl.
  - constructor; [reflexivity | constructor].
  - destruct (Ascii.eqb x sep) eqn:Ex.
    + constructor; [reflexivity | exact IH].
    + destruct (split sep rest) as [|h t].
      * constructor; [simpl; now rewrite Ex | constructor].
      * inversion IH; subst. constructor; [simpl; now rewrite Ex | assumption].
Qed.

Lemma join_split (sep : ascii) (text : string) :
  join sep (split sep text) = text.
Proof.
  induction text as [|x rest IH]; simpl; [reflexivity|].
  destruct (Ascii.eqb x sep) eqn:Ex.
  - apply Ascii.eqb_eq in Ex. subst x.
    destruct (split sep rest) as [|h t] eqn:E.
    + now destruct (split_not_nil sep rest).
    + cbn [join]. cbn [join] in IH. simpl. now rewrite IH.
  - destruct (split sep rest) as [|h t] eqn:E.
    + now destruct (split_not_nil sep rest).
    + destruct t as [|h' t'].
      * simpl in *. now rewrite IH.
      * cbn [join] in *. simpl. now rewrite IH.
Qed.

Lemma split_join (sep : ascii) (parts : list string) :
  parts <> [] ->
  Forall (fun piece => char_in sep piece = false) parts ->
  split sep (join sep parts) = parts.
Proof.
  induction parts as [|p rest IH]; [congruence|].
  intros _ Hall. inversion Hall as [|? ? Hp Hrest]; subst.
  destruct rest as [|q rest'].
  - simpl. now apply split_no_sep.
  - change (join sep (p :: q :: rest')) with (p ++ String sep (join sep (q :: rest'))).
    rewrite split_app, (split_no_sep sep p Hp), IH; [reflexivity|discriminate|assumption].
Qed.

Section Facts.

Context {S : PyStr}.

Lemma is_identifier_loop_forallb (parts : list string) :
  is_identifier_loop parts = forallb isidentifier parts.
Proof.
  induction parts as [|p rest IH]; simpl; [reflexivity|].
  destruct (isidentifier p); simpl; [exact IH | reflexivity].
Qed.

(** X1: [is_identifier] is the conjunction of [str.isidentifier] over the
    ['.']-delimited pieces of the text, on every text: the shortcut taken for
    a text without ['.'] returns what the loop would. *)
Theorem is_identifier_all_pieces (text : string) :
  is_identifier text = forallb isidentifier (split dot text).
Proof.
  unfold is_identifier. destruct (char_in dot text) eqn:E; simpl.
  - apply is_identifier_loop_forallb.
  - rewrite (split_no_sep dot text E). simpl. now rewrite andb_true_r.
Qed.

(** X2: a text [a.b] is accepted exactly when [a] and [b] both are, whatever
    further ['.'] they contain. *)
Theorem is_identifier_qualified (a b : string) :
  is_identifier (a ++ String dot b) = is_identifier a && is_identifier b.
Proof.
  rewrite !is_identifier_all_pieces, split_app. apply forallb_app.
Qed.

(** X3: [is_identifier] accepts exactly the texts obtained by joining with
    ['.'] one or more strings, each free of ['.'] and accepted by
    [str.isidentifier]. *)
Theorem is_identifier_iff_join (text : string) :
  is_identifier text = true <->
  exists parts,
    parts <> [] /\ text = join dot parts /\
    Forall (fun piece => char_in dot piece = false /\
                         isidentifier piece = true) parts.
Proof.
  rewrite is_identifier_all_pieces. split.
  - intros Hall. exists (split dot text).
    split; [apply split_not_nil|]. split; [now rewrite join_split|].
    rewrite forallb_forall in Hall.
    pose proof (split_pieces_no_sep dot text) as Hno.
    rewrite Forall_forall in *. intros p Hp. split; [now apply Hno | now apply Hall].
  - intros [parts [Hne [Htext Hall]]]. subst text.
    rewrite split_join.
    + rewrite forallb_forall. rewrite Forall_forall in Hall.
      intros p Hp. now apply Hall.
    + exact Hne.
    + eapply Forall_impl; [|exact Hall]. now intros p [Hp _].
Qed.

(** X4: when [str.isidentifier] rejects the empty string, [is_identifier]
    rejects the empty text, every text starting or ending with ['.'], and
    every text holding two consecutive ['.']. *)
Theorem is_identifier_empty_piece :
  isidentifier "" = false ->
  is_identifier "" = false /\
  (forall a, is_identifier (String dot a) = false) /\
  (forall a, is_identifier (a ++ ".") = false) /\
  (forall a b, is_identifier (a ++ ".." ++ b) = false).
Proof.
  intros Hempty.
  assert (E : is_identifier "" = false) by exact Hempty.
  split; [exact E|]. split; [|split].
  - intros a. change (String dot a) with ("" ++ String dot a).
    now rewrite is_identifier_qualified, E.
  - intros a. change "." with (String dot "").
    now rewrite is_identifier_qualified, E, andb_false_r.
  - intros a b. change (".." ++ b) with (String dot (String dot b)).
    rewrite is_identifier_qualified.
    change (String dot b) with ("" ++ String dot b).
    now rewrite is_identifier_qualified, E, andb_false_r.
Qed.

End Facts.

Lemma is_identifier_empty_piece_witness :
  isidentifier (PyStr := DemoIdent.demo_str) "" = false /\
  is_identifier (S := DemoIdent.demo_str) "beartype..door" = false /\
  is_identifier (S := DemoIdent.demo_str) "beartype.door" = true.
Proof.
  split; [reflexivity|]. split; [|reflexivity].
  apply (is_identifier_empty_piece (S := DemoIdent.demo_str) eq_refl)
    with (a := "beartype") (b := "door").
Defined.

End IdentFacts.

(** * Further properties of doorsub.py *)
Module DoorMore.
Import Door DoorAux DoorFacts.

Section Facts.

Context {R : PyRuntime} {L : PyRuntimeLaws R}.

(** Induction on a wrapper with the property available on every child. *)
Lemma TypeHint_nested_ind (P : TypeHint -> Prop) :
  (forall c o s args, Forall P args -> P (mkTypeHint c o s args)) ->
  forall h, P h.
Proof.
  intros Hmk. fix IH 1. intros [c o s args]. apply Hmk.
  induction args as [|x xs IHxs]; constructor; [apply IH | exact IHxs].
Qed.

Lemma all_zip_diag (f : TypeHint -> TypeHint -> bool) (xs : list TypeHint) :
  Forall (fun x => f x x = true) xs -> all_zip f xs xs = true.
Proof.
  unfold all_zip. induction 1 as [|x xs Hx _ IH]; simpl; [reflexivity|].
  now rewrite Hx, IH.
Qed.

Lemma isinstance_own_class (h : TypeHint) : isinstance h (type_of h) = true.
Proof. unfold isinstance. now destruct (type_of h). Qed.

(** X5: when [issubclass] is reflexive, every wrapper is a subtype of
    itself. *)
Theorem is_subtype_of_refl (A : TypeHint) :
  (forall t : type_, issubclass t t = true) ->
  is_subtype_of A A = true.
Proof.
  intros Hrefl. induction A as [c o s args IH] using TypeHint_nested_ind.
  unfold is_subtype_of. rewrite _is_le_branch_eq.
  destruct (_is_args_ignorable (mkTypeHint c o s args)); [apply Hrefl|].
  rewrite isinstance_own_class, Hrefl. simpl.
  now apply all_zip_diag.
Qed.

(** X6: when [issubclass] is reflexive, every wrapper is equal to itself,
    whichever [_is_equal] its class runs. *)
Theorem equals_refl (A : TypeHint) :
  (forall t : type_, issubclass t t = true) ->
  equals A A = true.
Proof.
  intros Hrefl. induction A as [c o s args IH] using TypeHint_nested_ind.
  rewrite equals_eq. cbn [type_of].
  destruct (is_isinstanceable c).
  - unfold _is_equal. cbn [_origin _hint_sign _args_wrapped_tuple].
    destruct (_is_args_ignorable (mkTypeHint c o s args)); simpl.
    + now apply type_eqb_spec.
    + rewrite (proj2 (sign_is_spec s s) eq_refl), Nat.eqb_refl. simpl.
      now apply all_zip_diag.
  - now rewrite (is_subtype_of_refl _ Hrefl).
Qed.

(** X7: a positive subtype test implies that the origin of the left operand
    subclasses the origin of the right operand. *)
Theorem is_subtype_of_origin (A B : TypeHint) :
  is_subtype_of A B = true ->
  issubclass (_origin A) (_origin B) = true.
Proof.
  unfold is_subtype_of. rewrite _is_le_branch_eq.
  destruct (_is_args_ignorable B); [trivial|].
  rewrite !andb_true_iff. tauto.
Qed.

Lemma combine_app_l (xs extra ys : list TypeHint) :
  List.length ys <= List.length xs ->
  combine (xs ++ extra) ys = combine xs ys.
Proof.
  revert ys. induction xs as [|x xs IH]; intros [|y ys] Hlen; simpl in *;
    try reflexivity; try lia.
  - now destruct extra.
  - f_equal. apply IH. lia.
Qed.

(** X8: children of the left operand beyond the number of children of the
    right operand play no part in the subtype test. *)
Theorem is_subtype_of_truncates (c : WrapperCls) (o : type_) (s : HintSign)
    (args extra : list TypeHint) (B : TypeHint) :
  List.length (_args_wrapped_tuple B) <= List.length args ->
  is_subtype_of (mkTypeHint c o s (args ++ extra)) B =
  is_subtype_of (mkTypeHint c o s args) B.
Proof.
  intros Hlen. unfold is_subtype_of at 1 2. rewrite !_is_le_branch_eq.
  cbn [type_of _origin _args_wrapped_tuple]. unfold all_zip.
  now rewrite combine_app_l.
Qed.

(** *** Signs and the subtype test *)

Lemma with_sign_origin (s0 : HintSign) (h : TypeHint) :
  _origin (with_sign s0 h) = _origin h.
Proof. now destruct h. Qed.

Lemma with_sign_type_of (s0 : HintSign) (h : TypeHint) :
  type_of (with_sign s0 h) = type_of h.
Proof. now destruct h. Qed.

Lemma with_sign_args (s0 : HintSign) (h : TypeHint) :
  _args_wrapped_tuple (with_sign s0 h) = map (with_sign s0) (_args_wrapped_tuple h).
Proof. now destruct h. Qed.

Lemma with_sign_ignorable (s0 : HintSign) (h : TypeHint) :
  _is_args_ignorable (with_sign s0 h) = _is_args_ignorable h.
Proof.
  unfold _is_args_ignorable. rewrite with_sign_args.
  induction (_args_wrapped_tuple h) as [|x xs IH]; simpl; [reflexivity|].
  now rewrite with_sign_origin, IH.
Qed.

Lemma all_zip_map (f : TypeHint -> TypeHint -> bool)
    (g h : TypeHint -> TypeHint) (xs ys : list TypeHint) :
  Forall (fun x => forall y, f (g x) (h y) = f x y) xs ->
  all_zip f (map g xs) (map h ys) = all_zip f xs ys.
Proof.
  unfold all_zip. intros Hall. revert ys.
  induction Hall as [|x xs Hx _ IH]; intros [|y ys]; simpl; try reflexivity.
  now rewrite Hx, IH.
Qed.

(** X9: the subtype test reads no sign: replacing the sign of every node of
    the left operand by one sign and of every node of the right operand by
    another leaves its result unchanged. *)
Theorem is_subtype_of_ignores_signs (s1 s2 : HintSign) (A B : TypeHint) :
  is_subtype_of (with_sign s1 A) (with_sign s2 B) = is_subtype_of A B.
Proof.
  revert B. induction A as [c o s args IH] using TypeHint_nested_ind.
  intros B.
  change (_is_le_branch (with_sign s1 (mkTypeHint c o s args)) (with_sign s2 B)
          = _is_le_branch (mkTypeHint c o s args) B).
  rewrite !_is_le_branch_eq.
  rewrite with_sign_ignorable, !with_sign_origin, with_sign_type_of.
  unfold isinstance. rewrite with_sign_type_of, !with_sign_args.
  cbn [_args_wrapped_tuple].
  now rewrite (all_zip_map is_subtype_of _ _ args (_args_wrapped_tuple B) IH).
Qed.

(** *** Symmetry of equality *)

Lemma kind_aligned_eq (A B : TypeHint) :
  kind_aligned A B =
  Bool.eqb (is_isinstanceable (type_of A)) (is_isinstanceable (type_of B)) &&
  all_zip kind_aligned (_args_wrapped_tuple A) (_args_wrapped_tuple B).
Proof.
  destruct A as [c o s args]. cbn [kind_aligned type_of _args_wrapped_tuple].
  f_equal. generalize (_args_wrapped_tuple B). unfold all_zip.
  induction args as [|x xs IH]; intros [|y ys]; simpl; try reflexivity.
  now rewrite IH.
Qed.

Lemma type_eqb_sym (a b : type_) : type_eqb a b = type_eqb b a.
Proof.
  destruct (type_eqb a b) eqn:E1; destruct (type_eqb b a) eqn:E2; try reflexivity.
  - apply type_eqb_spec in E1. subst b.
    rewrite (proj2 (type_eqb_spec a a) eq_refl) in E2. discriminate.
  - apply type_eqb_spec in E2. subst b.
    rewrite (proj2 (type_eqb_spec a a) eq_refl) in E1. discriminate.
Qed.

Lemma sign_is_sym (a b : HintSign) : sign_is a b = sign_is b a.
Proof.
  destruct (sign_is a b) eqn:E1; destruct (sign_is b a) eqn:E2; try reflexivity.
  - apply sign_is_spec in E1. subst b.
    rewrite (proj2 (sign_is_spec a a) eq_refl) in E2. discriminate.
  - apply sign_is_spec in E2. subst b.
    rewrite (proj2 (sign_is_spec a a) eq_refl) in E1. discriminate.
Qed.

Lemma all_zip_swap (f g : TypeHint -> TypeHint -> bool) (xs ys : list TypeHint) :
  Forall (fun x => forall y, g x y = true -> f x y = f y x) xs ->
  all_zip g xs ys = true ->
  all_zip f xs ys = all_zip f ys xs.
Proof.
  unfold all_zip. intros Hall. revert ys.
  induction Hall as [|x xs Hx _ IH]; intros [|y ys]; simpl; try reflexivity.
  rewrite andb_true_iff. intros [Hg Hrest].
  now rewrite (Hx y Hg), (IH ys Hrest).
Qed.

(** X10: [A == B] and [B == A] return the same value when [A] and [B] are
    aligned: both or neither of an isinstanceable class, and likewise their
    children position by position. *)
Theorem equals_sym_aligned (A B : TypeHint) :
  kind_aligned A B = true -> equals A B = equals B A.
Proof.
  revert B. induction A as [c o s args IH] using TypeHint_nested_ind.
  intros B. rewrite kind_aligned_eq, andb_true_iff.
  cbn [type_of _args_wrapped_tuple]. intros [Hkind Hchildren].
  apply eqb_prop in Hkind.
  rewrite !equals_eq. cbn [type_of]. rewrite <- Hkind.
  destruct (is_isinstanceable c).
  - unfold _is_equal. cbn [_origin _hint_sign _args_wrapped_tuple].
    rewrite (andb_comm (_is_args_ignorable B)).
    rewrite (type_eqb_sym (_origin B)), (sign_is_sym (_hint_sign B)).
    rewrite (Nat.eqb_sym (List.length (_args_wrapped_tuple B))).
    now rewrite (all_zip_swap equals kind_aligned args _ IH Hchildren).
  - apply andb_comm.
Qed.

End Facts.

(** *** The theorems on the concrete runtime *)

Section OnDemo.

Import Demo.

Lemma demo_issubclass_refl (t : DemoType) : demo_issubclass t t = true.
Proof. now destruct t. Qed.

Lemma is_subtype_of_refl_witness : is_subtype_of dict_str_int dict_str_int = true.
Proof. exact (is_subtype_of_refl dict_str_int demo_issubclass_refl). Defined.

Lemma equals_refl_witness : equals dict_str_int dict_str_int = true.
Proof.
  exact (equals_refl (L := demo_laws) dict_str_int demo_issubclass_refl).
Defined.

Lemma is_subtype_of_origin_witness :
  is_subtype_of list_int list_object = true /\
  issubclass (_origin list_int) (_origin list_object) = true.
Proof.
  split; [reflexivity|].
  apply (is_subtype_of_origin list_int list_object). reflexivity.
Defined.

Lemma is_subtype_of_truncates_witness :
  is_subtype_of
    (mkTypeHint (R := demo_runtime) TypeHintSubscripted t_list HintSignList
                [hint_int; hint_str])
    list_object
  = is_subtype_of
      (mkTypeHint (R := demo_runtime) TypeHintSubscripted t_list HintSignList
                  [hint_int])
      list_object.
Proof.
  apply (is_subtype_of_truncates (R := demo_runtime) TypeHintSubscripted
           t_list HintSignList [hint_int] [hint_str] list_object).
  simpl. lia.
Defined.

Lemma equals_sym_aligned_witness :
  kind_aligned list_int list_object = true /\
  equals list_int list_object = equals list_object list_int.
Proof.
  split; [reflexivity|].
  apply (equals_sym_aligned (L := demo_laws) list_int list_object). reflexivity.
Defined.

End OnDemo.

End DoorMore.

(** * Further properties of utilpepgeneric.py *)
Module GenericMore.
Import Generic GenericFacts.

Section Facts.

Context {H : HintRuntime}.

(** X11: a hint that [is_hint_pep484585_generic] rejects is handed to
    [get_hint_pep484_generic_bases_unerased]; an exception that getter raises
    comes out unchanged, whatever [exception_cls] and [exception_prefix]. *)
Theorem bases_unerased_of_non_generic (hint : object)
    (exception_cls : ExceptionCls) (exception_prefix : string) :
  is_hint_pep484585_generic hint = false ->
  bases_unerased_dispatch hint = get_hint_pep484_generic_bases_unerased hint /\
  forall e,
    get_hint_pep484_generic_bases_unerased hint = Raise e ->
    get_hint_pep484585_generic_bases_unerased hint exception_cls
      exception_prefix = Raise e.
Proof.
  unfold is_hint_pep484585_generic. intros Hgen.
  apply orb_false_iff in Hgen. destruct Hgen as [_ H585].
  assert (E : bases_unerased_dispatch hint =
              get_hint_pep484_generic_bases_unerased hint).
  { unfold bases_unerased_dispatch. now rewrite H585. }
  split; [exact E|].
  intros e He. unfold get_hint_pep484585_generic_bases_unerased.
  now rewrite E, He.
Qed.

(** X12: on a hint that is a class, [get_hint_pep484585_generic_type] does
    not raise: it returns a class, the one
    [get_hint_pep484585_generic_type_or_none] returns. *)
Theorem generic_type_of_class (hint : object)
    (exception_cls : ExceptionCls) (exception_prefix : string) :
  is_type hint = true ->
  exists cls,
    is_type cls = true /\
    get_hint_pep484585_generic_type_or_none hint = Some cls /\
    get_hint_pep484585_generic_type hint exception_cls exception_prefix
      = Return cls.
Proof.
  intros Hcls.
  unfold get_hint_pep484585_generic_type,
         get_hint_pep484585_generic_type_or_none.
  destruct (get_hint_pep_origin_or_none hint) as [o|]; simpl.
  - destruct (is_type o) eqn:Eo.
    + exists o. auto.
    + rewrite Hcls. exists hint. auto.
  - rewrite Hcls. exists hint. auto.
Qed.

End Facts.

Section OnDemo.

Import Demo.

Lemma bases_unerased_of_non_generic_witness :
  is_hint_pep484585_generic (H := demo_hints) obj_Union_str_int = false /\
  get_hint_pep484585_generic_bases_unerased (H := demo_hints) obj_Union_str_int
    (OtherException "ValueError") "prefix "
  = Raise (demo_not_generic obj_Union_str_int).
Proof.
  split; [reflexivity|].
  apply (bases_unerased_of_non_generic (H := demo_hints) obj_Union_str_int
           (OtherException "ValueError") "prefix " eq_refl).
  reflexivity.
Defined.

Lemma generic_type_of_class_witness :
  is_type (HintRuntime := demo_hints) obj_MuhIterable = true /\
  exists cls,
    get_hint_pep484585_generic_type (H := demo_hints) obj_MuhIterable
      BeartypeDecorHintPep484585Exception "" = Return cls.
Proof.
  split; [reflexivity|].
  destruct (generic_type_of_class (H := demo_hints) obj_MuhIterable
              BeartypeDecorHintPep484585Exception "" eq_refl)
    as [cls [_ [_ E]]].
  exists cls. exact E.
Defined.

End OnDemo.

End GenericMore.

(** * Properties of utilfunccode.py: source code of callables *)
Module FuncCodeFacts.
Import FuncCode FuncCodeAux.

Section Facts.

Context {F : FuncRuntime}.






(** *** The getters *)

(** X14: when [die_unless_func_python] raises, the three getters raise that
    exception, for a lambda as for any other callable, and no warning is
    emitted. *)
Theorem getters_reject_non_python (f : func) (exception_cls : ExceptionCls)
    (warning_cls : string) (e : PyException) :
  die_unless_func_python f exception_cls = Raise e ->
  get_func_code_lines_or_none f exception_cls = Raise e /\
  get_func_file_code_lines_or_none f exception_cls = Raise e /\
  get_func_code_or_none f exception_cls warning_cls = ([], Raise e).
Proof.
  intros Hdie.
  assert (E1 : get_func_code_lines_or_none f exception_cls = Raise e).
  { unfold get_func_code_lines_or_none. now rewrite Hdie. }
  assert (E2 : get_func_file_code_lines_or_none f exception_cls = Raise e).
  { unfold get_func_file_code_lines_or_none. now rewrite Hdie. }
  split; [exact E1|]. split; [exact E2|].
  unfold get_func_code_or_none. rewrite E1, E2.
  now destruct (is_func_lambda f).
Qed.

(** X15: for a pure-Python callable declared in memory, that is when
    [inspect.findsource] and [inspect.getsource] both raise an [OSError],
    [get_func_code_or_none] returns [None] without warning, for a lambda as
    for any other callable. *)
Theorem get_func_code_or_none_in_memory (f : func)
    (exception_cls : ExceptionCls) (warning_cls : string)
    (e1 e2 : PyException) :
  die_unless_func_python f exception_cls = Return tt ->
  findsource f = Raise e1 -> is_OSError (exc_cls e1) = true ->
  getsource f = Raise e2 -> is_OSError (exc_cls e2) = true ->
  get_func_code_or_none f exception_cls warning_cls = ([], Return None).
Proof.
  intros Hdie Hfind H1 Hget H2.
  assert (E1 : get_func_code_lines_or_none f exception_cls = Return None).
  { unfold get_func_code_lines_or_none. now rewrite Hdie, Hget, H2. }
  assert (E2 : get_func_file_code_lines_or_none f exception_cls = Return None).
  { unfold get_func_file_code_lines_or_none. now rewrite Hdie, Hfind, H1. }
  unfold get_func_code_or_none. rewrite E1, E2.
  now destruct (is_func_lambda f).
Qed.







End Facts.

(** *** The theorems on the concrete callables *)

Section OnDemo.

Import DemoFunc.

Lemma getters_reject_non_python_witness :
  get_func_code_or_none (F := demo_funcs) f_builtin
    (OtherException "ValueError") "UserWarning"
  = ([], Raise (mkException (OtherException "ValueError")
                  "Callable <built-in function len> not pure-Python.")).
Proof.
  apply (getters_reject_non_python (F := demo_funcs) f_builtin
           (OtherException "ValueError") "UserWarning").
  reflexivity.
Defined.

Lemma get_func_code_or_none_in_memory_witness :
  get_func_code_or_none (F := demo_funcs) f_lambda_exec
    (OtherException "ValueError") "UserWarning"
  = ([], Return None).
Proof.
  apply (get_func_code_or_none_in_memory (F := demo_funcs) f_lambda_exec
           (OtherException "ValueError") "UserWarning"
           demo_OSError demo_OSError); reflexivity.
Defined.



End OnDemo.

End FuncCodeFacts.

(** * Properties of utilfunccode.py: label of a callable *)
Module FuncLabelFacts.
Import FuncLabel.

Section Facts.

Context {O : ObjRuntime}.

(** X19: on a callable object that is neither a standard callable nor a
    class, [get_func_code_label] gives what it gives on the class of that
    object, classes being callable and no standard callables. *)
Theorem get_func_code_label_of_instance (f : pyobj) :
  callable f = true -> is_CallableTypes f = false -> obj_is_type f = false ->
  callable (type_of_obj f) = true ->
  is_CallableTypes (type_of_obj f) = false ->
  obj_is_type (type_of_obj f) = true ->
  get_func_code_label f = get_func_code_label (type_of_obj f).
Proof.
  intros Hc Hs Ht Hc' Hs' Ht'. unfold get_func_code_label.
  now rewrite Hc, Hs, Ht, Hc', Hs', Ht'.
Qed.

(** X20: [get_func_code_label] raises in two cases only: the callable
    exception exactly when the object is not callable, and [KeyError] exactly
    when the object is callable, is no standard callable, and the
    [__module__] of its class is a non-empty string missing from
    [sys.modules]. *)
Theorem get_func_code_label_raises (f : pyobj) (e : PyException) :
  get_func_code_label f = Raise e <->
  (callable f = false /\
   e = mkException BeartypeUtilCallableException
         (obj_repr f ++ " not callable.")) \/
  (callable f = true /\ is_CallableTypes f = false /\
   exists name,
     attr_module (if obj_is_type f then f else type_of_obj f) = VStr name /\
     name <> "" /\ sys_modules name = None /\
     e = mkException KeyError ("'" ++ name ++ "'")).
Proof.
  unfold get_func_code_label, truthy.
  destruct (callable f); simpl.
  - destruct (is_CallableTypes f).
    + split.
      * destruct (get_func_unwrapped_codeobj_or_none f); discriminate.
      * intros [[Hf _] | [_ [Hf _]]]; discriminate Hf.
    + destruct (obj_is_type f); simpl.
      * destruct (attr_module f) as [name|] eqn:Em.
        -- destruct (String.eqb name "") eqn:En; simpl.
           ++ split; [discriminate|].
              intros [[Hf _] | [_ [_ [n [Hn [Hne _]]]]]]; [discriminate Hf|].
              inversion Hn; subst n. apply String.eqb_eq in En. contradiction.
           ++ apply String.eqb_neq in En.
              destruct (sys_modules name) eqn:Es.
              ** split; [discriminate|].
                 intros [[Hf _] | [_ [_ [n [Hn [_ [Hs _]]]]]]]; [discriminate Hf|].
                 inversion Hn; subst n. congruence.
              ** split.
                 --- intros E. inversion E. right. repeat split.
                     exists name. auto.
                 --- intros [[Hf _] | [_ [_ [n [Hn [_ [_ He]]]]]]]; [discriminate Hf|].
                     inversion Hn; subst n. now subst e.
        -- split; [discriminate|].
           intros [[Hf _] | [_ [_ [n [Hn _]]]]]; [discriminate Hf | discriminate Hn].
      * destruct (attr_module (type_of_obj f)) as [name|] eqn:Em.
        -- destruct (String.eqb name "") eqn:En; simpl.
           ++ split; [discriminate|].
              intros [[Hf _] | [_ [_ [n [Hn [Hne _]]]]]]; [discriminate Hf|].
              inversion Hn; subst n. apply String.eqb_eq in En. contradiction.
           ++ apply String.eqb_neq in En.
              destruct (sys_modules name) eqn:Es.
              ** split; [discriminate|].
                 intros [[Hf _] | [_ [_ [n [Hn [_ [Hs _]]]]]]]; [discriminate Hf|].
                 inversion Hn; subst n. congruence.
              ** split.
                 --- intros E. inversion E. right. repeat split.
                     exists name. auto.
                 --- intros [[Hf _] | [_ [_ [n [Hn [_ [_ He]]]]]]]; [discriminate Hf|].
                     inversion Hn; subst n. now subst e.
        -- split; [discriminate|].
           intros [[Hf _] | [_ [_ [n [Hn _]]]]]; [discriminate Hf | discriminate Hn].
  - split.
    + intros E. inversion E. left. auto.
    + intros [[_ He] | [Hf _]]; [now subst e | discriminate Hf].
Qed.

(** X21: on a standard callable [get_func_code_label] does not raise, and
    the label is either the [co_filename] of the code object of the callable
    or the placeholder for C-based callables, never the placeholder for
    callables declared in memory unless [co_filename] holds it. *)
Theorem get_func_code_label_standard (f : pyobj) :
  callable f = true -> is_CallableTypes f = true ->
  exists label,
    get_func_code_label f = Return label /\
    (label = VStr "<C-based>" \/
     exists code,
       get_func_unwrapped_codeobj_or_none f = Some code /\
       getattr_co_filename code = Some label).
Proof.
  intros Hc Hs. unfold get_func_code_label. rewrite Hc, Hs. simpl.
  destruct (get_func_unwrapped_codeobj_or_none f) as [code|].
  - destruct (getattr_co_filename code) as [v|] eqn:Ev; simpl.
    + exists v. split; [reflexivity|]. right. exists code. auto.
    + exists (VStr "<C-based>"). auto.
  - exists (VStr "<C-based>"). auto.
Qed.

End Facts.

Section OnDemo.

Import DemoFunc.

Lemma get_func_code_label_of_instance_witness :
  get_func_code_label (O := demo_objs) o_inst = Return (VStr "/src/muh.py") /\
  get_func_code_label (O := demo_objs) o_inst
  = get_func_code_label (O := demo_objs) o_Cls.
Proof.
  split; [reflexivity|].
  apply (get_func_code_label_of_instance (O := demo_objs) o_inst); reflexivity.
Defined.

Lemma get_func_code_label_raises_witness :
  get_func_code_label (O := demo_objs) o_lost_inst
  = Raise (mkException KeyError "'lost'").
Proof.
  apply (get_func_code_label_raises (O := demo_objs) o_lost_inst).
  right. split; [reflexivity|]. split; [reflexivity|].
  exists "lost". repeat split. discriminate.
Defined.

Lemma get_func_code_label_standard_witness :
  callable (ObjRuntime := demo_objs) o_len = true /\
  exists label, get_func_code_label (O := demo_objs) o_len = Return label.
Proof.
  split; [reflexivity|].
  destruct (get_func_code_label_standard (O := demo_objs) o_len eq_refl eq_refl)
    as [label [E _]].
  exists label. exact E.
Defined.

End OnDemo.

End FuncLabelFacts.
